(** * Heresay voice notes: the capture workflow and its stores

    A shallow embedding of the handlers of [src/App.tsx],
    [src/components/VoiceRecorder.tsx], the History component and the
    Dictionary component.  React state is a record threaded through a state
    and exception monad; every call to an external collaborator (the hosted
    database, the AI provider, the microphone, the clock) is recorded in a
    trace and answered by an explicit record of responses, so a rejected
    promise is an ordinary input of the model. *)

From Stdlib Require Import NArith ZArith String Ascii Lia.
From stdpp Require Import base decidable option list sorting.

Set Default Proof Using "Type".
Local Open Scope N_scope.

(** ** JavaScript strings

    A JavaScript string is a sequence of UTF-16 code units. *)
Module Js.

Definition str : Type := list N.

(** A source literal (the literals of the program are ASCII). *)
Definition lit (s : string) : str := N_of_ascii <$> list_ascii_of_string s.

Definition quote : str := [34].
Definition newline : str := [10].

(** ECMAScript [WhiteSpace] and [LineTerminator] code points, the ones
    [String.prototype.trim] strips.  All of them are in the BMP, so each is
    one code unit. *)
Definition is_white_space (c : N) : bool :=
  (c =? 9) || (c =? 10) || (c =? 11) || (c =? 12) || (c =? 13) ||
  (c =? 32) || (c =? 160) || (c =? 5760) ||
  ((8192 <=? c) && (c <=? 8202)) ||
  (c =? 8232) || (c =? 8233) || (c =? 8239) || (c =? 8287) ||
  (c =? 12288) || (c =? 65279).

Fixpoint trimStart (s : str) : str :=
  match s with
  | [] => []
  | c :: s' => if is_white_space c then trimStart s' else s
  end.

Definition trimEnd (s : str) : str := rev (trimStart (rev s)).

(** [s.trim()] *)
Definition trim (s : str) : str := trimEnd (trimStart s).

(** Truthiness of a string: every string but the empty one. *)
Definition truthy (s : str) : bool :=
  match s with [] => false | _ :: _ => true end.

(** [parts.join(sep)] *)
Fixpoint join (sep : str) (parts : list str) : str :=
  match parts with
  | [] => []
  | [p] => p
  | p :: rest => p ++ sep ++ join sep rest
  end.

(** [s.split(sep)] for a one-unit separator. *)
Fixpoint split_go (sep : N) (cur : str) (s : str) : list str :=
  match s with
  | [] => [rev cur]
  | c :: s' => if c =? sep then rev cur :: split_go sep [] s'
               else split_go sep (c :: cur) s'
  end.
Definition split (sep : N) (s : str) : list str := split_go sep [] s.

Definition eqb (a b : str) : bool := bool_decide (a = b).

End Js.

(** ** Entities ([src/App.tsx], lines 9-23) *)
Module VoiceNote.
Record t : Type := mk
  { id : Js.str;
    originalText : Js.str;
    correctedText : Js.str;
    createdAt : Js.str;
    userId : Js.str }.
End VoiceNote.

Module DictionaryEntry.
(** The components read the spelling as [entry.correct_spelling]; it is the
    field the interface calls [correctSpelling]. *)
Record t : Type := mk
  { id : Js.str;
    word : Js.str;
    correct_spelling : Js.str;
    userId : Js.str;
    createdAt : Js.str }.
End DictionaryEntry.

Module User.
Record t : Type := mk { id : Js.str; email : Js.str }.
End User.

(** The records handed to [blink.db.*.create]. *)
Module NoteRecord.
Record t : Type := mk
  { original_text : Js.str;
    corrected_text : Js.str;
    user_id : Js.str;
    created_at : Js.str }.
End NoteRecord.

Module EntryRecord.
Record t : Type := mk
  { word : Js.str;
    correct_spelling : Js.str;
    user_id : Js.str;
    created_at : Js.str }.
End EntryRecord.

(** [new Blob(chunks, { type })]: the recorded chunks and the encoding tag. *)
Module Blob.
Record t : Type := mk { parts : list (list N); type : Js.str }.
End Blob.

(** ** External collaborators *)

(** A promise settles one of two ways. *)
Inductive outcome (A : Type) : Type :=
| Resolved (a : A)
| Rejected (e : Js.str).
Arguments Resolved {A} a.
Arguments Rejected {A} e.

(** What the collaborators answer while one handler runs.  No handler calls
    the same collaborator twice. *)
Module Collab.
Record t : Type := mk
  { getUserMedia : outcome unit;
    recorded : list N;
    readAsDataURL : outcome Js.str;
    transcribeAudio : outcome Js.str;
    generateText : outcome Js.str;
    notes_create : outcome VoiceNote.t;
    notes_delete : outcome unit;
    entries_create : outcome DictionaryEntry.t;
    entries_delete : outcome unit;
    now : Js.str }.
End Collab.

(** Everything a handler does to the outside, in order. *)
Inductive effect : Type :=
| ToastSuccess (msg : Js.str)
| ToastError (msg : Js.str)
| ConsoleError (msg : Js.str) (e : Js.str)
| GetUserMedia
| AiTranscribeAudio (audio : option Js.str) (language : Js.str)
| AiGenerateText (prompt model : Js.str) (maxTokens : N)
| NotesCreate (r : NoteRecord.t)
| NotesDelete (id : Js.str)
| EntriesCreate (r : EntryRecord.t)
| EntriesDelete (id : Js.str)
| ClipboardWrite (text : Js.str).

(** ** Component state *)

Module AppState.
Record t : Type := mk
  { user : option User.t;
    notes : list VoiceNote.t;
    dictionary : list DictionaryEntry.t;
    isLoading : bool }.
End AppState.

(** The [MediaRecorder] held in the ref.  Its [onstop] closure is the one
    built by the render in which [startRecording] ran, so it carries that
    render's [dictionary] prop. *)
Module Recorder.
Record t : Type := mk
  { stream : nat;
    onstop_dictionary : list DictionaryEntry.t }.
End Recorder.

Module RecorderState.
Record t : Type := mk
  { isRecording : bool;
    isTranscribing : bool;
    isProcessing : bool;
    originalText : Js.str;
    correctedText : Js.str;
    audioBlob : option Blob.t;
    mediaRecorder : option Recorder.t;
    audioChunks : list (list N) }.
End RecorderState.

Module HistoryState.
Record t : Type := mk { selectedNote : option VoiceNote.t }.
End HistoryState.

Module DictionaryState.
Record t : Type := mk
  { newWord : Js.str;
    correctSpelling : Js.str;
    isAdding : bool }.
End DictionaryState.

(** The microphone: how many streams [getUserMedia] has granted, the streams
    whose tracks are live, and the recorders in state ["recording"] (a
    recorder is named by its stream). *)
Module Media.
Record t : Type := mk
  { granted : nat;
    live : list nat;
    capturing : list nat }.
End Media.

Module World.
Record t : Type := mk
  { app : AppState.t;
    recorder : RecorderState.t;
    history : HistoryState.t;
    dict : DictionaryState.t;
    media : Media.t;
    trace : list effect }.
End World.

(** ** The handler monad: state, and exceptions for [throw] *)

Inductive completion (A : Type) : Type :=
| Normal (a : A)
| Throw (e : Js.str).
Arguments Normal {A} a.
Arguments Throw {A} e.

Definition M (A : Type) : Type := World.t -> completion A * World.t.

Definition ret {A} (a : A) : M A := fun w => (Normal a, w).

Definition bind {A B} (m : M A) (k : A -> M B) : M B :=
  fun w => match m w with
           | (Normal a, w') => k a w'
           | (Throw e, w') => (Throw e, w')
           end.

Definition throw {A} (e : Js.str) : M A := fun w => (Throw e, w).

(** [try { body } catch (e) { handler }] *)
Definition try_catch {A} (body : M A) (handler : Js.str -> M A) : M A :=
  fun w => match body w with
           | (Normal a, w') => (Normal a, w')
           | (Throw e, w') => handler e w'
           end.

(** [try { body } finally { fin }] *)
Definition try_finally {A} (body : M A) (fin : M unit) : M A :=
  fun w => match body w with
           | (r, w') => match fin w' with
                        | (Normal _, w'') => (r, w'')
                        | (Throw e, w'') => (Throw e, w'')
                        end
           end.

Definition get : M World.t := fun w => (Normal w, w).
Definition modify (f : World.t -> World.t) : M unit := fun w => (Normal tt, f w).

(** [await p] *)
Definition await {A} (p : outcome A) : M A :=
  match p with
  | Resolved a => ret a
  | Rejected e => throw e
  end.

Declare Scope handler_scope.
Delimit Scope handler_scope with handler.
Notation "x <- m ;; k" := (bind m (fun x => k))
  (at level 100, m at next level, right associativity) : handler_scope.
Notation "m ;;; k" := (bind m (fun _ => k))
  (at level 100, right associativity) : handler_scope.
Local Open Scope handler_scope.

(** The state a handler ends in, and how it completes. *)
Definition exec {A} (m : M A) (w : World.t) : World.t := snd (m w).
Definition result {A} (m : M A) (w : World.t) : completion A := fst (m w).

(** ** Effects and state setters *)

Definition with_app (f : AppState.t -> AppState.t) (w : World.t) : World.t :=
  World.mk (f (World.app w)) (World.recorder w) (World.history w)
           (World.dict w) (World.media w) (World.trace w).
Definition with_recorder (f : RecorderState.t -> RecorderState.t) (w : World.t) : World.t :=
  World.mk (World.app w) (f (World.recorder w)) (World.history w)
           (World.dict w) (World.media w) (World.trace w).
Definition with_history (f : HistoryState.t -> HistoryState.t) (w : World.t) : World.t :=
  World.mk (World.app w) (World.recorder w) (f (World.history w))
           (World.dict w) (World.media w) (World.trace w).
Definition with_dict (f : DictionaryState.t -> DictionaryState.t) (w : World.t) : World.t :=
  World.mk (World.app w) (World.recorder w) (World.history w)
           (f (World.dict w)) (World.media w) (World.trace w).
Definition with_media (f : Media.t -> Media.t) (w : World.t) : World.t :=
  World.mk (World.app w) (World.recorder w) (World.history w)
           (World.dict w) (f (World.media w)) (World.trace w).
Definition with_trace (f : list effect -> list effect) (w : World.t) : World.t :=
  World.mk (World.app w) (World.recorder w) (World.history w)
           (World.dict w) (World.media w) (f (World.trace w)).

Definition emit (e : effect) : M unit := modify (with_trace (fun t => t ++ [e])).

Definition toast_success (msg : string) : M unit := emit (ToastSuccess (Js.lit msg)).
Definition toast_error (msg : string) : M unit := emit (ToastError (Js.lit msg)).
Definition console_error (msg : string) (e : Js.str) : M unit :=
  emit (ConsoleError (Js.lit msg) e).

(** [useState] setters of [App]. *)
Definition setNotes (f : list VoiceNote.t -> list VoiceNote.t) : M unit :=
  modify (with_app (fun a =>
    AppState.mk (AppState.user a) (f (AppState.notes a))
                (AppState.dictionary a) (AppState.isLoading a))).
Definition setDictionary (f : list DictionaryEntry.t -> list DictionaryEntry.t) : M unit :=
  modify (with_app (fun a =>
    AppState.mk (AppState.user a) (AppState.notes a)
                (f (AppState.dictionary a)) (AppState.isLoading a))).

(** [useState] setters and refs of [VoiceRecorder]. *)
Definition setIsRecording (b : bool) : M unit :=
  modify (with_recorder (fun r =>
    RecorderState.mk b (RecorderState.isTranscribing r) (RecorderState.isProcessing r)
      (RecorderState.originalText r) (RecorderState.correctedText r)
      (RecorderState.audioBlob r) (RecorderState.mediaRecorder r)
      (RecorderState.audioChunks r))).
Definition setIsTranscribing (b : bool) : M unit :=
  modify (with_recorder (fun r =>
    RecorderState.mk (RecorderState.isRecording r) b (RecorderState.isProcessing r)
      (RecorderState.originalText r) (RecorderState.correctedText r)
      (RecorderState.audioBlob r) (RecorderState.mediaRecorder r)
      (RecorderState.audioChunks r))).
Definition setIsProcessing (b : bool) : M unit :=
  modify (with_recorder (fun r =>
    RecorderState.mk (RecorderState.isRecording r) (RecorderState.isTranscribing r) b
      (RecorderState.originalText r) (RecorderState.correctedText r)
      (RecorderState.audioBlob r) (RecorderState.mediaRecorder r)
      (RecorderState.audioChunks r))).
Definition setOriginalText (s : Js.str) : M unit :=
  modify (with_recorder (fun r =>
    RecorderState.mk (RecorderState.isRecording r) (RecorderState.isTranscribing r)
      (RecorderState.isProcessing r) s (RecorderState.correctedText r)
      (RecorderState.audioBlob r) (RecorderState.mediaRecorder r)
      (RecorderState.audioChunks r))).
Definition setCorrectedText (s : Js.str) : M unit :=
  modify (with_recorder (fun r =>
    RecorderState.mk (RecorderState.isRecording r) (RecorderState.isTranscribing r)
      (RecorderState.isProcessing r) (RecorderState.originalText r) s
      (RecorderState.audioBlob r) (RecorderState.mediaRecorder r)
      (RecorderState.audioChunks r))).
Definition setAudioBlob (b : option Blob.t) : M unit :=
  modify (with_recorder (fun r =>
    RecorderState.mk (RecorderState.isRecording r) (RecorderState.isTranscribing r)
      (RecorderState.isProcessing r) (RecorderState.originalText r)
      (RecorderState.correctedText r) b (RecorderState.mediaRecorder r)
      (RecorderState.audioChunks r))).
Definition set_mediaRecorder (m : option Recorder.t) : M unit :=
  modify (with_recorder (fun r =>
    RecorderState.mk (RecorderState.isRecording r) (RecorderState.isTranscribing r)
      (RecorderState.isProcessing r) (RecorderState.originalText r)
      (RecorderState.correctedText r) (RecorderState.audioBlob r) m
      (RecorderState.audioChunks r))).
Definition set_audioChunks (f : list (list N) -> list (list N)) : M unit :=
  modify (with_recorder (fun r =>
    RecorderState.mk (RecorderState.isRecording r) (RecorderState.isTranscribing r)
      (RecorderState.isProcessing r) (RecorderState.originalText r)
      (RecorderState.correctedText r) (RecorderState.audioBlob r)
      (RecorderState.mediaRecorder r) (f (RecorderState.audioChunks r)))).

Definition setSelectedNote (n : option VoiceNote.t) : M unit :=
  modify (with_history (fun _ => HistoryState.mk n)).

Definition setNewWord (s : Js.str) : M unit :=
  modify (with_dict (fun d =>
    DictionaryState.mk s (DictionaryState.correctSpelling d) (DictionaryState.isAdding d))).
Definition setCorrectSpelling (s : Js.str) : M unit :=
  modify (with_dict (fun d =>
    DictionaryState.mk (DictionaryState.newWord d) s (DictionaryState.isAdding d))).
Definition setIsAdding (b : bool) : M unit :=
  modify (with_dict (fun d =>
    DictionaryState.mk (DictionaryState.newWord d) (DictionaryState.correctSpelling d) b)).

(** *** The microphone *)

(** [navigator.mediaDevices.getUserMedia({ audio: true })], once granted: a
    fresh stream with a live track. *)
Definition acquire_stream : M nat :=
  w <- get;;
  let s := Media.granted (World.media w) in
  modify (with_media (fun m =>
    Media.mk (S (Media.granted m)) (s :: Media.live m) (Media.capturing m)));;;
  ret s.

(** [recorder.start()] on a recorder just built. *)
Definition recorder_start (s : nat) : M unit :=
  modify (with_media (fun m =>
    Media.mk (Media.granted m) (Media.live m) (s :: Media.capturing m))).

(** [recorder.stop()]: an [InvalidStateError] when the recorder is inactive. *)
Definition recorder_stop (s : nat) : M unit :=
  w <- get;;
  if bool_decide (s ∈ Media.capturing (World.media w)) then
    modify (with_media (fun m =>
      Media.mk (Media.granted m) (Media.live m)
               (filter (fun x => x ≠ s) (Media.capturing m))))
  else throw (Js.lit "InvalidStateError").

(** [recorder.stream.getTracks().forEach(track => track.stop())] *)
Definition stop_tracks (s : nat) : M unit :=
  modify (with_media (fun m =>
    Media.mk (Media.granted m) (filter (fun x => x ≠ s) (Media.live m))
             (Media.capturing m))).

(** ** [Array.prototype.sort]

    The sort is stable; with a consistent comparator its result is the
    stable sorted arrangement, which insertion from the right computes. *)
Fixpoint sort_insert {A} (cmp : A -> A -> Z) (x : A) (l : list A) : list A :=
  match l with
  | [] => [x]
  | y :: l' => if (cmp x y <=? 0)%Z then x :: l else y :: sort_insert cmp x l'
  end.

Definition sort {A} (cmp : A -> A -> Z) (l : list A) : list A :=
  foldr (sort_insert cmp) [] l.

(** ** [App] ([src/App.tsx]) *)
Module App.

(** [user.id]: a [TypeError] while [user] is still [null]. *)
Definition user_id (u : option User.t) : M Js.str :=
  match u with
  | Some u => ret (User.id u)
  | None => throw (Js.lit "TypeError")
  end.

(** Lines 75-87. *)
Definition addNote (c : Collab.t) (originalText correctedText : Js.str) : M unit :=
  w0 <- get;;
  try_catch
    (uid <- user_id (AppState.user (World.app w0));;
     emit (NotesCreate (NoteRecord.mk originalText correctedText uid (Collab.now c)));;;
     newNote <- await (Collab.notes_create c);;
     setNotes (fun prev => newNote :: prev))
    (fun error => console_error "Error adding note:" error).

(** Lines 112-119. *)
Definition deleteNote (c : Collab.t) (id : Js.str) : M unit :=
  try_catch
    (emit (NotesDelete id);;;
     await (Collab.notes_delete c);;;
     setNotes (fun prev => filter (fun note => VoiceNote.id note ≠ id) prev))
    (fun error => console_error "Error deleting note:" error).

(** Lines 103-110. *)
Definition deleteDictionaryEntry (c : Collab.t) (id : Js.str) : M unit :=
  try_catch
    (emit (EntriesDelete id);;;
     await (Collab.entries_delete c);;;
     setDictionary (fun prev => filter (fun entry => DictionaryEntry.id entry ≠ id) prev))
    (fun error => console_error "Error deleting dictionary entry:" error).

Section Builtins.
(** [String.prototype.toLowerCase] and [String.prototype.localeCompare]
    are the engine's; the handlers are read over any such pair. *)
Variable toLowerCase : Js.str -> Js.str.
Variable localeCompare : Js.str -> Js.str -> Z.

Definition by_word (a b : DictionaryEntry.t) : Z :=
  localeCompare (DictionaryEntry.word a) (DictionaryEntry.word b).

(** Lines 89-101. *)
Definition addDictionaryEntry (c : Collab.t) (word correctSpelling : Js.str) : M unit :=
  w0 <- get;;
  try_catch
    (let word' := toLowerCase word in
     uid <- user_id (AppState.user (World.app w0));;
     emit (EntriesCreate (EntryRecord.mk word' correctSpelling uid (Collab.now c)));;;
     newEntry <- await (Collab.entries_create c);;
     setDictionary (fun prev => sort by_word (prev ++ [newEntry])))
    (fun error => console_error "Error adding dictionary entry:" error).
End Builtins.

End App.

(** ** [VoiceRecorder] ([src/components/VoiceRecorder.tsx]) *)
Module VoiceRecorder.

(** The template literal of lines 93-95. *)
Definition dictionaryContext (dictionary : list DictionaryEntry.t) : Js.str :=
  if (0 <? length dictionary)%nat then
    Js.newline ++ Js.newline
    ++ Js.lit "Custom Dictionary (use these correct spellings):" ++ Js.newline
    ++ Js.join Js.newline
         ((fun entry =>
             Js.lit "- " ++ Js.quote ++ DictionaryEntry.word entry ++ Js.quote
             ++ Js.lit " should be spelled as "
             ++ Js.quote ++ DictionaryEntry.correct_spelling entry ++ Js.quote)
          <$> dictionary)
  else [].

(** The template literal of lines 98-102. *)
Definition prompt (dictionary : list DictionaryEntry.t) (text : Js.str) : Js.str :=
  Js.lit "Please correct the grammar, punctuation, and spelling in this transcribed text. Make it well-formatted and professional while preserving the original meaning and tone. Apply proper capitalization and sentence structure."
  ++ dictionaryContext dictionary
  ++ Js.newline ++ Js.newline
  ++ Js.lit "Original text: " ++ Js.quote ++ text ++ Js.quote
  ++ Js.newline ++ Js.newline
  ++ Js.lit "Return only the corrected text without any explanations or formatting.".

(** Lines 89-115.  [dictionary] is the prop of the render that built the
    closure. *)
Definition correctText (c : Collab.t) (dictionary : list DictionaryEntry.t)
    (text : Js.str) : M unit :=
  setIsProcessing true;;;
  try_finally
    (try_catch
       (emit (AiGenerateText (prompt dictionary text) (Js.lit "gpt-4o-mini") 500);;;
        corrected <- await (Collab.generateText c);;
        setCorrectedText (Js.trim corrected))
       (fun error =>
          console_error "Error correcting text:" error;;;
          toast_error "Failed to correct text";;;
          setCorrectedText text))
    (setIsProcessing false).

(** [dataUrl.split(',')[1]] *)
Definition base64_of (dataUrl : Js.str) : option Js.str :=
  Js.split 44 dataUrl !! 1%nat.

(** Lines 59-87. *)
Definition transcribeAudio (c : Collab.t) (dictionary : list DictionaryEntry.t)
    (blob : Blob.t) : M unit :=
  setIsTranscribing true;;;
  try_finally
    (try_catch
       (dataUrl <- await (Collab.readAsDataURL c);;
        emit (AiTranscribeAudio (base64_of dataUrl) (Js.lit "en"));;;
        text <- await (Collab.transcribeAudio c);;
        setOriginalText text;;;
        correctText c dictionary text)
       (fun error =>
          console_error "Error transcribing audio:" error;;;
          toast_error "Failed to transcribe audio"))
    (setIsTranscribing false).

(** The recorder's [ondataavailable] and [onstop] (lines 31-39). *)
Definition ondataavailable (data : list N) : M unit :=
  set_audioChunks (fun chunks => chunks ++ [data]).

Definition onstop (c : Collab.t) (r : Recorder.t) : M unit :=
  w <- get;;
  let audioBlob :=
    Blob.mk (RecorderState.audioChunks (World.recorder w)) (Js.lit "audio/wav") in
  setAudioBlob (Some audioBlob);;;
  transcribeAudio c (Recorder.onstop_dictionary r) audioBlob.

(** Lines 25-48. *)
Definition startRecording (c : Collab.t) : M unit :=
  w0 <- get;;
  try_catch
    (emit GetUserMedia;;;
     await (Collab.getUserMedia c);;;
     stream <- acquire_stream;;
     set_mediaRecorder
       (Some (Recorder.mk stream (AppState.dictionary (World.app w0))));;;
     set_audioChunks (fun _ => []);;;
     recorder_start stream;;;
     setIsRecording true;;;
     toast_success "Recording started")
    (fun error =>
       console_error "Error starting recording:" error;;;
       toast_error "Failed to start recording").

(** Lines 50-57.  [isRecording] is the render's value, the ref is read
    when the handler runs. *)
Definition stopRecording : M unit :=
  w0 <- get;;
  match RecorderState.mediaRecorder (World.recorder w0),
        RecorderState.isRecording (World.recorder w0) with
  | Some r, true =>
      recorder_stop (Recorder.stream r);;;
      stop_tracks (Recorder.stream r);;;
      setIsRecording false;;;
      toast_success "Recording stopped"
  | _, _ => ret tt
  end.

(** Lines 117-120. *)
Definition copyToClipboard (text : Js.str) : M unit :=
  emit (ClipboardWrite text);;;
  toast_success "Copied to clipboard!".

(** Lines 122-138. *)
Definition saveNote (onSaveNote : Js.str -> Js.str -> M unit) : M unit :=
  w0 <- get;;
  let originalText := RecorderState.originalText (World.recorder w0) in
  let correctedText := RecorderState.correctedText (World.recorder w0) in
  if negb (Js.truthy originalText) || negb (Js.truthy correctedText) then
    toast_error "No text to save"
  else
    try_catch
      (onSaveNote originalText correctedText;;;
       toast_success "Note saved!";;;
       setOriginalText [];;;
       setCorrectedText [];;;
       setAudioBlob None)
      (fun error =>
         console_error "Error saving note:" error;;;
         toast_error "Failed to save note").

(** Lines 140-146. *)
Definition reprocessText (c : Collab.t) : M unit :=
  w0 <- get;;
  let originalText := RecorderState.originalText (World.recorder w0) in
  if negb (Js.truthy originalText) then
    toast_error "No text to reprocess"
  else
    correctText c (AppState.dictionary (World.app w0)) originalText.

End VoiceRecorder.

(** ** [History] *)
Module History.

(** [selectedNote?.id === id] *)
Definition selected_is (sel : option VoiceNote.t) (id : Js.str) : bool :=
  match sel with
  | Some n => Js.eqb (VoiceNote.id n) id
  | None => false
  end.

(** Lines 22-33. *)
Definition handleDeleteNote (onDeleteNote : Js.str -> M unit) (id : Js.str) : M unit :=
  w0 <- get;;
  try_catch
    (onDeleteNote id;;;
     toast_success "Note deleted";;;
     if selected_is (HistoryState.selectedNote (World.history w0)) id
     then setSelectedNote None
     else ret tt)
    (fun error =>
       console_error "Error deleting note:" error;;;
       toast_error "Failed to delete note").

End History.

(** ** [Dictionary] *)
Module Dictionary.

(** Lines 20-38. *)
Definition handleAddEntry (onAddEntry : Js.str -> Js.str -> M unit) : M unit :=
  w0 <- get;;
  let newWord := DictionaryState.newWord (World.dict w0) in
  let correctSpelling := DictionaryState.correctSpelling (World.dict w0) in
  if negb (Js.truthy (Js.trim newWord)) || negb (Js.truthy (Js.trim correctSpelling)) then
    toast_error "Please enter both word and correct spelling"
  else
    setIsAdding true;;;
    try_finally
      (try_catch
         (onAddEntry (Js.trim newWord) (Js.trim correctSpelling);;;
          setNewWord [];;;
          setCorrectSpelling [];;;
          toast_success "Dictionary entry added!")
         (fun error =>
            console_error "Error adding entry:" error;;;
            toast_error "Failed to add entry"))
      (setIsAdding false).

(** Lines 40-48. *)
Definition handleDeleteEntry (onDeleteEntry : Js.str -> M unit) (id : Js.str) : M unit :=
  try_catch
    (onDeleteEntry id;;;
     toast_success "Entry deleted")
    (fun error =>
       console_error "Error deleting entry:" error;;;
       toast_error "Failed to delete entry").

End Dictionary.

(** ** The Record tab as rendered (lines 148-262)

    Which handler an interaction reaches depends on what the render shows:
    the round button toggles on [isRecording] and is disabled while a
    transcription or correction is in flight, each text area exists only
    while its text is non-empty, and so on.  Each handler runs to completion,
    with its awaits, before the next interaction is dispatched. *)
Module RecordTab.

Inductive event : Type :=
| ClickRecord
| EditOriginal (value : Js.str)
| EditCorrected (value : Js.str)
| ClickReprocess
| ClickSave.

(** [onClick={isRecording ? stopRecording : startRecording}] with
    [disabled={isTranscribing || isProcessing}].  A recorder that was
    stopped then receives its last data and its stop event. *)
Definition recordButton_onClick (c : Collab.t) : M unit :=
  w0 <- get;;
  let r := World.recorder w0 in
  if RecorderState.isTranscribing r || RecorderState.isProcessing r then ret tt
  else if RecorderState.isRecording r then
    VoiceRecorder.stopRecording;;;
    match RecorderState.mediaRecorder r with
    | Some rec =>
        VoiceRecorder.ondataavailable (Collab.recorded c);;;
        VoiceRecorder.onstop c rec
    | None => ret tt
    end
  else VoiceRecorder.startRecording c.

Definition dispatch (c : Collab.t) (e : event) : M unit :=
  w0 <- get;;
  let r := World.recorder w0 in
  match e with
  | ClickRecord => recordButton_onClick c
  | EditOriginal value =>
      if Js.truthy (RecorderState.originalText r) then setOriginalText value
      else ret tt
  | EditCorrected value =>
      if Js.truthy (RecorderState.correctedText r) then setCorrectedText value
      else ret tt
  | ClickReprocess =>
      if Js.truthy (RecorderState.correctedText r)
         && negb (RecorderState.isProcessing r)
      then VoiceRecorder.reprocessText c
      else ret tt
  | ClickSave =>
      if Js.truthy (RecorderState.originalText r)
         && Js.truthy (RecorderState.correctedText r)
      then VoiceRecorder.saveNote (App.addNote c)
      else ret tt
  end.

(** The state after a sequence of interactions, each with the answers the
    collaborators give during it. *)
Definition run (evs : list (Collab.t * event)) (w : World.t) : World.t :=
  foldl (fun w ce => exec (dispatch ce.1 ce.2) w) w evs.

(** The tab as first mounted. *)
Definition initial (a : AppState.t) : World.t :=
  World.mk a
    (RecorderState.mk false false false [] [] None None [])
    (HistoryState.mk None)
    (DictionaryState.mk [] [] false)
    (Media.mk 0 [] [])
    [].

(** Capture sessions under way: recorders recording. *)
Definition sessions (w : World.t) : nat := length (Media.capturing (World.media w)).

End RecordTab.


(** ** Orders on the dictionary *)

(** [a] may stand before [b] under a comparator in the style of
    [Array.prototype.sort]: negative or zero. *)
Definition cmp_le {A} (cmp : A -> A -> Z) (a b : A) : Prop := (cmp a b <= 0)%Z.

(** The word of [a] does not come after the word of [b]: [localeCompare] of
    the two words is negative or zero.  This is the order the dictionary is
    to be in; it is stated on the words themselves, not through the
    comparator the code passes to [sort]. *)
Definition word_le (localeCompare : Js.str -> Js.str -> Z) : relation DictionaryEntry.t :=
  fun a b =>
    (localeCompare (DictionaryEntry.word a) (DictionaryEntry.word b) <= 0)%Z.

(** Ascending by word: every entry may stand before every later one. *)
Definition sorted_by_word (localeCompare : Js.str -> Js.str -> Z)
    (l : list DictionaryEntry.t) : Prop :=
  StronglySorted (word_le localeCompare) l.

(** ** Invariant of the Record tab

    Between interactions nothing is in flight, and the microphone is held
    exactly when [isRecording] says so, by the recorder in the ref. *)
Definition settled (w : World.t) : Prop :=
  let r := World.recorder w in
  let m := World.media w in
  RecorderState.isTranscribing r = false
  /\ RecorderState.isProcessing r = false
  /\ (if RecorderState.isRecording r
      then exists rec, RecorderState.mediaRecorder r = Some rec
                       /\ Media.capturing m = [Recorder.stream rec]
                       /\ Media.live m = [Recorder.stream rec]
      else Media.capturing m = [] /\ Media.live m = []).

(** ** Concrete inputs for the examples *)
Module Sample.

Definition user : User.t := User.mk (Js.lit "u1") (Js.lit "u1@example.org").

Definition note : VoiceNote.t :=
  VoiceNote.mk (Js.lit "n1") (Js.lit "helo world") (Js.lit "Hello, world.")
               (Js.lit "2024-05-01T10:00:00.000Z") (Js.lit "u1").

Definition older : VoiceNote.t :=
  VoiceNote.mk (Js.lit "n0") (Js.lit "first") (Js.lit "First.")
               (Js.lit "2024-04-30T09:00:00.000Z") (Js.lit "u1").

Definition entry : DictionaryEntry.t :=
  DictionaryEntry.mk (Js.lit "d1") (Js.lit "nukular") (Js.lit "nuclear")
                     (Js.lit "u1") (Js.lit "2024-05-01T10:00:00.000Z").

Definition zebra : DictionaryEntry.t :=
  DictionaryEntry.mk (Js.lit "d0") (Js.lit "zebra") (Js.lit "Zebra")
                     (Js.lit "u1") (Js.lit "2024-04-30T09:00:00.000Z").

(** Every collaborator answers. *)
Definition ok : Collab.t :=
  Collab.mk (Resolved tt) [82; 73; 70; 70]
            (Resolved (Js.lit "data:audio/wav;base64,UklGRg=="))
            (Resolved (Js.lit "helo world"))
            (Resolved (Js.lit " Hello, world. "))
            (Resolved note) (Resolved tt) (Resolved entry) (Resolved tt)
            (Js.lit "2024-05-01T10:00:00.000Z").

Definition correction_down : Collab.t :=
  Collab.mk (Resolved tt) [82; 73; 70; 70]
            (Resolved (Js.lit "data:audio/wav;base64,UklGRg=="))
            (Resolved (Js.lit "helo world"))
            (Rejected (Js.lit "503"))
            (Resolved note) (Resolved tt) (Resolved entry) (Resolved tt)
            (Js.lit "2024-05-01T10:00:00.000Z").

Definition transcription_down : Collab.t :=
  Collab.mk (Resolved tt) [82; 73; 70; 70]
            (Resolved (Js.lit "data:audio/wav;base64,UklGRg=="))
            (Rejected (Js.lit "503"))
            (Resolved (Js.lit " Hello, world. "))
            (Resolved note) (Resolved tt) (Resolved entry) (Resolved tt)
            (Js.lit "2024-05-01T10:00:00.000Z").

Definition store_down : Collab.t :=
  Collab.mk (Resolved tt) [82; 73; 70; 70]
            (Resolved (Js.lit "data:audio/wav;base64,UklGRg=="))
            (Resolved (Js.lit "helo world"))
            (Resolved (Js.lit " Hello, world. "))
            (Rejected (Js.lit "503")) (Rejected (Js.lit "503"))
            (Rejected (Js.lit "503")) (Rejected (Js.lit "503"))
            (Js.lit "2024-05-01T10:00:00.000Z").

(** Signed in, nothing stored, Record tab just mounted. *)
Definition world : World.t :=
  RecordTab.initial (AppState.mk (Some user) [] [] false).

(** The same with a transcript and its correction waiting to be saved. *)
Definition ready : World.t :=
  exec (setOriginalText (Js.lit "helo world");;;
        setCorrectedText (Js.lit "Hello, world.")) world.

(** A history of two notes with the newer one selected. *)
Definition browsing : World.t :=
  exec (setNotes (fun _ => [note; older]);;; setSelectedNote (Some note)) world.

(** A dictionary of one entry. *)
Definition listed : World.t := exec (setDictionary (fun _ => [zebra])) world.

(** The Dictionary form filled in, with stray blanks and capitals. *)
Definition typed : World.t :=
  exec (setNewWord (Js.lit " Nukular ");;; setCorrectSpelling (Js.lit "nuclear ")) listed.

(** Stand-ins for the engine's builtins: ASCII lower-casing, and
    comparison by code units. *)
Definition ascii_lower (s : Js.str) : Js.str :=
  (fun c => if (65 <=? c) && (c <=? 90) then c + 32 else c) <$> s.

Fixpoint compare_units (a b : Js.str) : Z :=
  match a, b with
  | [], [] => 0%Z
  | [], _ :: _ => (-1)%Z
  | _ :: _, [] => 1%Z
  | x :: a', y :: b' =>
      if x <? y then (-1)%Z
      else if y <? x then 1%Z
      else compare_units a' b'
  end.

End Sample.


(** ** Proof support *)

Arguments Js.lit : simpl never.

Ltac unfold_monad :=
  cbv [exec result bind ret throw try_catch try_finally get modify await emit
       toast_success toast_error console_error
       setNotes setDictionary setIsRecording setIsTranscribing setIsProcessing
       setOriginalText setCorrectedText setAudioBlob set_mediaRecorder
       set_audioChunks setSelectedNote setNewWord setCorrectSpelling setIsAdding
       with_app with_recorder with_history with_dict with_media with_trace].

Ltac run_handler := unfold_monad; simpl.

(** ** Loading at start-up ([src/App.tsx], lines 31-73) *)

(** The queries handed to [blink.db.voice_notes.list] and
    [blink.db.dictionary_entries.list]. *)
Module NotesQuery.
Record t : Type := mk
  { where_user_id : Js.str;
    orderBy_created_at_desc : bool;
    limit : N }.
End NotesQuery.

Module EntriesQuery.
Record t : Type := mk
  { where_user_id : Js.str;
    orderBy_word_asc : bool }.
End EntriesQuery.

(** What the collaborators answer at start-up: who is signed in, and the
    rows for a query. *)
Module Backend.
Record t : Type := mk
  { me : outcome User.t;
    notes_list : NotesQuery.t -> outcome (list VoiceNote.t);
    entries_list : EntriesQuery.t -> outcome (list DictionaryEntry.t) }.
End Backend.

Module Startup.

Definition setUser (u : option User.t) : M unit :=
  modify (with_app (fun a =>
    AppState.mk u (AppState.notes a) (AppState.dictionary a) (AppState.isLoading a))).

Definition setIsLoading (b : bool) : M unit :=
  modify (with_app (fun a =>
    AppState.mk (AppState.user a) (AppState.notes a) (AppState.dictionary a) b)).

(** Lines 50-61. *)
Definition loadNotes (b : Backend.t) (userId : Js.str) : M unit :=
  try_catch
    (userNotes <- await (Backend.notes_list b (NotesQuery.mk userId true 50));;
     setNotes (fun _ => userNotes))
    (fun error => console_error "Error loading notes:" error).

(** Lines 63-73. *)
Definition loadDictionary (b : Backend.t) (userId : Js.str) : M unit :=
  try_catch
    (userDictionary <- await (Backend.entries_list b (EntriesQuery.mk userId true));;
     setDictionary (fun _ => userDictionary))
    (fun error => console_error "Error loading dictionary:" error).

(** Lines 32-45. *)
Definition initializeApp (b : Backend.t) : M unit :=
  try_finally
    (try_catch
       (currentUser <- await (Backend.me b);;
        setUser (Some currentUser);;;
        loadNotes b (User.id currentUser);;;
        loadDictionary b (User.id currentUser))
       (fun error => console_error "Error initializing app:" error))
    (setIsLoading false).

End Startup.

(** ** More of [History] *)
Module HistoryView.

(** Lines 47-50; [maxLength] defaults to 100. *)
Definition truncateText (text : Js.str) (maxLength : nat) : Js.str :=
  if (length text <=? maxLength)%nat then text
  else take maxLength text ++ Js.lit "...".

(** [a || b] on strings. *)
Definition or_else (a b : Js.str) : Js.str := if Js.truthy a then a else b.

(** The line shown for a note in the list:
    [truncateText(note.correctedText || note.originalText)]. *)
Definition preview (note : VoiceNote.t) : Js.str :=
  truncateText (or_else (VoiceNote.correctedText note) (VoiceNote.originalText note)) 100.

(** Lines 17-20. *)
Definition copyToClipboard (text : Js.str) : M unit :=
  emit (ClipboardWrite text);;;
  toast_success "Copied to clipboard!".

(** The History tab as rendered: a row per note of the list, each with a
    delete button. *)
Inductive event : Type :=
| ClickNote (row : nat)
| ClickDelete (id : Js.str).

Definition dispatch (c : Collab.t) (e : event) : M unit :=
  w0 <- get;;
  let notes := AppState.notes (World.app w0) in
  match e with
  | ClickNote row =>
      match notes !! row with
      | Some note => setSelectedNote (Some note)
      | None => ret tt
      end
  | ClickDelete id =>
      if bool_decide (id ∈ VoiceNote.id <$> notes)
      then History.handleDeleteNote (App.deleteNote c) id
      else ret tt
  end.

End HistoryView.

(** ** The Dictionary tab as rendered *)
Module DictionaryTab.

Inductive event : Type :=
| TypeWord (value : Js.str)
| TypeSpelling (value : Js.str)
| ClickAdd
| ClickDelete (id : Js.str).

Section Builtins.
Variable toLowerCase : Js.str -> Js.str.
Variable localeCompare : Js.str -> Js.str -> Z.

(** The Add button is disabled while [isAdding]; a delete button exists per
    listed entry. *)
Definition dispatch (c : Collab.t) (e : event) : M unit :=
  w0 <- get;;
  match e with
  | TypeWord value => setNewWord value
  | TypeSpelling value => setCorrectSpelling value
  | ClickAdd =>
      if DictionaryState.isAdding (World.dict w0) then ret tt
      else Dictionary.handleAddEntry (App.addDictionaryEntry toLowerCase localeCompare c)
  | ClickDelete id =>
      if bool_decide (id ∈ DictionaryEntry.id <$> AppState.dictionary (World.app w0))
      then Dictionary.handleDeleteEntry (App.deleteDictionaryEntry c) id
      else ret tt
  end.
End Builtins.

End DictionaryTab.

(** The line a dictionary entry contributes to the correction request. *)
Definition hint_line (entry : DictionaryEntry.t) : Js.str :=
  Js.lit "- " ++ Js.quote ++ DictionaryEntry.word entry ++ Js.quote
  ++ Js.lit " should be spelled as "
  ++ Js.quote ++ DictionaryEntry.correct_spelling entry ++ Js.quote.

(** ** Properties kept by handlers *)

(** [m] keeps [P]: from a state with [P] it ends in a state with [P],
    however it completes. *)
Definition keeps {A} (P : World.t -> Prop) (m : M A) : Prop :=
  forall w, P w -> P (exec m w).

(** What the Record tab leaves alone: the History selection and the
    dictionary; and it only ever adds notes in front of the ones listed. *)
Definition record_frame (w0 w : World.t) : Prop :=
  World.history w = World.history w0
  /\ World.dict w = World.dict w0
  /\ AppState.user (World.app w) = AppState.user (World.app w0)
  /\ AppState.dictionary (World.app w) = AppState.dictionary (World.app w0)
  /\ exists added, AppState.notes (World.app w) = added ++ AppState.notes (World.app w0).

(** What the Dictionary tab leaves alone. *)
Definition dictionary_frame (w0 w : World.t) : Prop :=
  World.recorder w = World.recorder w0
  /\ World.media w = World.media w0
  /\ World.history w = World.history w0
  /\ AppState.user (World.app w) = AppState.user (World.app w0)
  /\ AppState.notes (World.app w) = AppState.notes (World.app w0).

(** What the History tab leaves alone. *)
Definition history_frame (w0 w : World.t) : Prop :=
  World.recorder w = World.recorder w0
  /\ World.media w = World.media w0
  /\ World.dict w = World.dict w0
  /\ AppState.user (World.app w) = AppState.user (World.app w0)
  /\ AppState.dictionary (World.app w) = AppState.dictionary (World.app w0)
  /\ AppState.notes (World.app w) `sublist_of` AppState.notes (World.app w0).

(** ** The record button while [getUserMedia] is pending

    [startRecording] suspends at its one [await] (line 27) and sets
    [isRecording] only after it (line 42).  Until the promise settles no state
    has changed, so the button is still rendered enabled and bound to
    [startRecording] (lines 158-159), and a second click starts the handler a
    second time. *)

(** A [startRecording] call waiting on its promise, with what its closure
    holds of the render it was built in. *)
Module Pending.
Record t : Type := mk { dictionary : list DictionaryEntry.t }.
End Pending.

Module AsyncRecord.

(** [startRecording] up to its await (lines 25-27): the request goes out. *)
Definition startRecording_begin : M Pending.t :=
  w0 <- get;;
  emit GetUserMedia;;;
  ret (Pending.mk (AppState.dictionary (World.app w0))).

(** [startRecording] from its await on (lines 27-47), once the promise has
    settled. *)
Definition startRecording_settle (p : outcome unit) (k : Pending.t) : M unit :=
  try_catch
    (await p;;;
     stream <- acquire_stream;;
     set_mediaRecorder (Some (Recorder.mk stream (Pending.dictionary k)));;;
     set_audioChunks (fun _ => []);;;
     recorder_start stream;;;
     setIsRecording true;;;
     toast_success "Recording started")
    (fun error =>
       console_error "Error starting recording:" error;;;
       toast_error "Failed to start recording").

(** The tab with the calls that wait on the microphone, oldest first. *)
Record state : Type := mk
  { world : World.t;
    pending : list Pending.t }.

Inductive event : Type :=
| Click (c : Collab.t)
| MicrophoneSettles (p : outcome unit).

(** A click reaches what the current render bound to the button: nothing
    while disabled, the stop path while [isRecording], and otherwise
    [startRecording], which runs up to its await.  When the microphone
    answers, the oldest waiting call runs on. *)
Definition step (s : state) (e : event) : state :=
  match e with
  | Click c =>
      let r := World.recorder (world s) in
      if RecorderState.isTranscribing r || RecorderState.isProcessing r
         || RecorderState.isRecording r
      then mk (exec (RecordTab.recordButton_onClick c) (world s)) (pending s)
      else
        match startRecording_begin (world s) with
        | (Normal k, w') => mk w' (pending s ++ [k])
        | (Throw _, w') => mk w' (pending s)
        end
  | MicrophoneSettles p =>
      match pending s with
      | [] => s
      | k :: rest => mk (exec (startRecording_settle p k) (world s)) rest
      end
  end.

Definition run (evs : list event) (s : state) : state := foldl step s evs.

(** The tab just mounted, nothing waiting. *)
Definition initial (a : AppState.t) : state := mk (RecordTab.initial a) [].

End AsyncRecord.

(** * Properties *)

(** ** Trimming *)

Lemma trimStart_split (s : Js.str) :
  exists pre, s = pre ++ Js.trimStart s /\ forallb Js.is_white_space pre = true.
Proof.
  induction s as [|c s [pre [E F]]]; simpl.
  - exists []. split; reflexivity.
  - destruct (Js.is_white_space c) eqn:W.
    + exists (c :: pre). simpl. rewrite W, F. split; [congruence | reflexivity].
    + exists []. split; reflexivity.
Qed.

Lemma trimStart_head (s : Js.str) (c : N) :
  head (Js.trimStart s) = Some c -> Js.is_white_space c = false.
Proof.
  induction s as [|d s IH]; simpl; [discriminate |].
  destruct (Js.is_white_space d) eqn:W; [exact IH |].
  simpl. intros [= <-]. exact W.
Qed.

Lemma trimEnd_split (s : Js.str) :
  exists post, s = Js.trimEnd s ++ post /\ forallb Js.is_white_space post = true.
Proof.
  unfold Js.trimEnd.
  destruct (trimStart_split (rev s)) as [pre [E F]].
  exists (rev pre). split.
  - rewrite <- rev_app_distr, <- E. symmetry. apply rev_involutive.
  - rewrite forallb_forall in *. intros x Hx. apply F. apply in_rev. exact Hx.
Qed.

Lemma trimEnd_last (s : Js.str) (c : N) :
  last (Js.trimEnd s) = Some c -> Js.is_white_space c = false.
Proof.
  unfold Js.trimEnd. intros H. apply (trimStart_head (rev s)).
  destruct (Js.trimStart (rev s)) as [|d t]; [discriminate |].
  simpl in *. rewrite last_snoc in H. exact H.
Qed.

Lemma trimEnd_head (s : Js.str) (c : N) :
  head (Js.trimEnd s) = Some c -> head s = Some c.
Proof.
  destruct (trimEnd_split s) as [post [E _]]. intros H.
  rewrite E. destruct (Js.trimEnd s); [discriminate | exact H].
Qed.

(** [trim] cuts a run of white space off each end and leaves none there. *)
Lemma trim_spec (s : Js.str) :
  (exists pre post,
      s = pre ++ Js.trim s ++ post
      /\ forallb Js.is_white_space pre = true
      /\ forallb Js.is_white_space post = true)
  /\ (forall c, head (Js.trim s) = Some c -> Js.is_white_space c = false)
  /\ (forall c, last (Js.trim s) = Some c -> Js.is_white_space c = false).
Proof.
  unfold Js.trim. split; [| split].
  - destruct (trimStart_split s) as [pre [E F]].
    destruct (trimEnd_split (Js.trimStart s)) as [post [E' F']].
    exists pre, post. rewrite <- E'. auto.
  - intros c H. apply trimEnd_head in H. exact (trimStart_head s c H).
  - intros c. apply trimEnd_last.
Qed.

Example trim_run : Js.trim (Js.lit "  Hello, world. ") = Js.lit "Hello, world.".
Proof. reflexivity. Qed.

Example trim_line_terminators :
  Js.trim ([10; 9; 8232] ++ Js.lit "a b" ++ [13; 10; 65279]) = Js.lit "a b".
Proof. reflexivity. Qed.

Example trim_blank : Js.trim (Js.lit "   ") = [].
Proof. reflexivity. Qed.

Example base64_of_run :
  VoiceRecorder.base64_of (Js.lit "data:audio/wav;base64,UklGRg==")
  = Some (Js.lit "UklGRg==").
Proof. reflexivity. Qed.

Example prompt_run :
  VoiceRecorder.prompt [Sample.entry] (Js.lit "the nukular plant")
  = Js.lit "Please correct the grammar, punctuation, and spelling in this transcribed text. Make it well-formatted and professional while preserving the original meaning and tone. Apply proper capitalization and sentence structure."
    ++ [10; 10] ++ Js.lit "Custom Dictionary (use these correct spellings):" ++ [10]
    ++ Js.lit "- " ++ [34] ++ Js.lit "nukular" ++ [34]
    ++ Js.lit " should be spelled as " ++ [34] ++ Js.lit "nuclear" ++ [34]
    ++ [10; 10] ++ Js.lit "Original text: " ++ [34] ++ Js.lit "the nukular plant" ++ [34]
    ++ [10; 10]
    ++ Js.lit "Return only the corrected text without any explanations or formatting.".
Proof. vm_compute. reflexivity. Qed.

(** ** Correction *)

(** What a correction leaves alone. *)
Lemma correctText_frame (c : Collab.t) (dictionary : list DictionaryEntry.t)
    (text : Js.str) (w : World.t) :
  let w' := exec (VoiceRecorder.correctText c dictionary text) w in
  result (VoiceRecorder.correctText c dictionary text) w = Normal tt
  /\ World.app w' = World.app w
  /\ World.media w' = World.media w
  /\ World.history w' = World.history w
  /\ World.dict w' = World.dict w
  /\ RecorderState.originalText (World.recorder w')
     = RecorderState.originalText (World.recorder w)
  /\ RecorderState.isRecording (World.recorder w')
     = RecorderState.isRecording (World.recorder w)
  /\ RecorderState.isTranscribing (World.recorder w')
     = RecorderState.isTranscribing (World.recorder w)
  /\ RecorderState.mediaRecorder (World.recorder w')
     = RecorderState.mediaRecorder (World.recorder w)
  /\ RecorderState.audioBlob (World.recorder w')
     = RecorderState.audioBlob (World.recorder w)
  /\ RecorderState.audioChunks (World.recorder w')
     = RecorderState.audioChunks (World.recorder w)
  /\ RecorderState.isProcessing (World.recorder w') = false.
Proof.
  unfold VoiceRecorder.correctText. run_handler.
  destruct (Collab.generateText c); simpl; repeat split.
Qed.

(** C1.  When the Correction Client rejects, [correctText] stores the text it
    was given, unchanged, as [correctedText] (so a non-empty text leaves a
    non-empty field), for every text; the failure is logged and shown. *)
Theorem correctText_fallback (c : Collab.t) (dictionary : list DictionaryEntry.t)
    (text : Js.str) (w : World.t) (e : Js.str) :
  Collab.generateText c = Rejected e ->
  let w' := exec (VoiceRecorder.correctText c dictionary text) w in
  RecorderState.correctedText (World.recorder w') = text
  /\ (text <> [] -> RecorderState.correctedText (World.recorder w') <> [])
  /\ World.trace w'
     = World.trace w
       ++ [AiGenerateText (VoiceRecorder.prompt dictionary text) (Js.lit "gpt-4o-mini") 500;
           ConsoleError (Js.lit "Error correcting text:") e;
           ToastError (Js.lit "Failed to correct text")].
Proof.
  intros H. unfold VoiceRecorder.correctText. run_handler. rewrite H. simpl.
  repeat split; [auto | ].
  rewrite <- !app_assoc. reflexivity.
Qed.

Lemma correctText_fallback_witness :
  RecorderState.correctedText
    (World.recorder
       (exec (VoiceRecorder.correctText Sample.correction_down [Sample.entry]
                (Js.lit " helo world ")) Sample.world))
  = Js.lit " helo world ".
Proof.
  apply (correctText_fallback Sample.correction_down [Sample.entry]
           (Js.lit " helo world ") Sample.world (Js.lit "503")).
  reflexivity.
Defined.

(** C10.  After a correction call that resolves, [correctedText] is the
    provider's text with the white space at both ends cut off: the returned
    text is a run of white space, then [correctedText], then a run of white
    space, and [correctedText] neither starts nor ends with white space.
    After one that rejects, [correctedText] is the input text as it is. *)
Theorem correctText_trims (c : Collab.t) (dictionary : list DictionaryEntry.t)
    (text : Js.str) (w : World.t) :
  let corrected' :=
    RecorderState.correctedText
      (World.recorder (exec (VoiceRecorder.correctText c dictionary text) w)) in
  (forall corrected, Collab.generateText c = Resolved corrected ->
     corrected' = Js.trim corrected
     /\ (exists pre post,
           corrected = pre ++ corrected' ++ post
           /\ forallb Js.is_white_space pre = true
           /\ forallb Js.is_white_space post = true)
     /\ (forall u, head corrected' = Some u -> Js.is_white_space u = false)
     /\ (forall u, last corrected' = Some u -> Js.is_white_space u = false))
  /\ (forall e, Collab.generateText c = Rejected e -> corrected' = text).
Proof.
  unfold VoiceRecorder.correctText. run_handler. split.
  - intros corrected H. rewrite H. simpl.
    destruct (trim_spec corrected) as [Hcut [Hhd Hlt]]. auto.
  - intros e H. rewrite H. reflexivity.
Qed.

Lemma correctText_trims_witness :
  RecorderState.correctedText
    (World.recorder
       (exec (VoiceRecorder.correctText Sample.ok [] (Js.lit " helo world ")) Sample.world))
  = Js.lit "Hello, world."
  /\ RecorderState.correctedText
       (World.recorder
          (exec (VoiceRecorder.correctText Sample.correction_down []
                   (Js.lit " helo world ")) Sample.world))
     = Js.lit " helo world ".
Proof.
  split.
  - apply (proj1 (correctText_trims Sample.ok [] (Js.lit " helo world ") Sample.world)
             (Js.lit " Hello, world. ")).
    reflexivity.
  - apply (proj2 (correctText_trims Sample.correction_down [] (Js.lit " helo world ")
                    Sample.world) (Js.lit "503")).
    reflexivity.
Defined.

(** In the workflow: a transcript whose correction fails ends up in both
    fields. *)
Lemma transcribeAudio_correction_fallback (c : Collab.t)
    (dictionary : list DictionaryEntry.t) (blob : Blob.t) (w : World.t)
    (dataUrl text e : Js.str) :
  Collab.readAsDataURL c = Resolved dataUrl ->
  Collab.transcribeAudio c = Resolved text ->
  Collab.generateText c = Rejected e ->
  let r' := World.recorder (exec (VoiceRecorder.transcribeAudio c dictionary blob) w) in
  RecorderState.originalText r' = text
  /\ RecorderState.correctedText r' = text
  /\ RecorderState.isTranscribing r' = false
  /\ RecorderState.isProcessing r' = false.
Proof.
  intros Hd Ht Hg.
  unfold VoiceRecorder.transcribeAudio, VoiceRecorder.correctText. run_handler.
  rewrite Hd. simpl. rewrite Ht. simpl. rewrite Hg. simpl. repeat split.
Qed.

(** ** Saving *)

(** [addNote] catches whatever goes wrong inside it: it always completes
    normally, so the [catch] of [saveNote] never runs when [onSaveNote] is
    [addNote]. *)
Lemma addNote_completes (c : Collab.t) (originalText correctedText : Js.str) (w : World.t) :
  result (App.addNote c originalText correctedText) w = Normal tt.
Proof.
  unfold App.addNote, App.user_id. run_handler.
  destruct (AppState.user (World.app w)); simpl; [| reflexivity].
  destruct (Collab.notes_create c); reflexivity.
Qed.

Lemma truthy_nonempty (s : Js.str) : Js.truthy s = true <-> s <> [].
Proof. destruct s; simpl; split; congruence. Qed.

Lemma falsy_empty (s : Js.str) : Js.truthy s = false <-> s = [].
Proof. destruct s; simpl; split; congruence. Qed.

(** C3.  With [originalText] or [correctedText] empty, [saveNote] does not
    call [onSaveNote] (whatever it is), so no create reaches the Note Store:
    the only effect is the error toast, and the recorder state (both texts)
    and the app state (the note list) are what they were.  The Save button is
    not even rendered then, and a click there does nothing at all. *)
Theorem saveNote_rejects_empty (onSaveNote : Js.str -> Js.str -> M unit)
    (c : Collab.t) (w : World.t) :
  RecorderState.originalText (World.recorder w) = []
  \/ RecorderState.correctedText (World.recorder w) = [] ->
  let w' := exec (VoiceRecorder.saveNote onSaveNote) w in
  World.trace w' = World.trace w ++ [ToastError (Js.lit "No text to save")]
  /\ World.recorder w' = World.recorder w
  /\ World.app w' = World.app w
  /\ exec (RecordTab.dispatch c RecordTab.ClickSave) w = w.
Proof.
  intros H. unfold RecordTab.dispatch, VoiceRecorder.saveNote. run_handler.
  assert (E : negb (Js.truthy (RecorderState.originalText (World.recorder w)))
              || negb (Js.truthy (RecorderState.correctedText (World.recorder w)))
              = true).
  { destruct H as [H | H]; rewrite H; simpl; [reflexivity | apply orb_true_r]. }
  rewrite E. simpl.
  assert (E' : Js.truthy (RecorderState.originalText (World.recorder w))
               && Js.truthy (RecorderState.correctedText (World.recorder w))
               = false).
  { destruct H as [H | H]; rewrite H; simpl; [reflexivity | apply andb_false_r]. }
  rewrite E'. simpl. repeat split.
Qed.

Lemma saveNote_rejects_empty_witness :
  World.app (exec (VoiceRecorder.saveNote (App.addNote Sample.ok)) Sample.world)
  = World.app Sample.world.
Proof.
  apply (saveNote_rejects_empty (App.addNote Sample.ok) Sample.ok Sample.world).
  left. reflexivity.
Defined.

(** C5, as the code runs.  When the Note Store rejects the create,
    [addNote] swallows the rejection, so [saveNote] goes on as after a
    success: it announces "Note saved!" and clears both text fields and the
    audio.  Only the note list is left as it was. *)
Theorem saveNote_store_failure (c : Collab.t) (w : World.t) (u : User.t) (e : Js.str) :
  AppState.user (World.app w) = Some u ->
  Collab.notes_create c = Rejected e ->
  RecorderState.originalText (World.recorder w) <> [] ->
  RecorderState.correctedText (World.recorder w) <> [] ->
  let w' := exec (VoiceRecorder.saveNote (App.addNote c)) w in
  RecorderState.originalText (World.recorder w') = []
  /\ RecorderState.correctedText (World.recorder w') = []
  /\ RecorderState.audioBlob (World.recorder w') = None
  /\ AppState.notes (World.app w') = AppState.notes (World.app w)
  /\ World.trace w'
     = World.trace w
       ++ [NotesCreate (NoteRecord.mk (RecorderState.originalText (World.recorder w))
                          (RecorderState.correctedText (World.recorder w))
                          (User.id u) (Collab.now c));
           ConsoleError (Js.lit "Error adding note:") e;
           ToastSuccess (Js.lit "Note saved!")].
Proof.
  intros Hu Hc Ho Hk. apply truthy_nonempty in Ho, Hk.
  unfold VoiceRecorder.saveNote, App.addNote, App.user_id. run_handler.
  rewrite Ho, Hk. simpl. rewrite Hu. simpl. rewrite Hc. simpl.
  repeat split. rewrite <- !app_assoc. reflexivity.
Qed.

Lemma saveNote_store_failure_witness :
  RecorderState.originalText
    (World.recorder (exec (VoiceRecorder.saveNote (App.addNote Sample.store_down)) Sample.ready))
  = [].
Proof.
  apply (saveNote_store_failure Sample.store_down Sample.ready Sample.user (Js.lit "503"));
    [reflexivity | reflexivity | discriminate | discriminate].
Defined.

(** C8.  When the Note Store resolves the create, [saveNote] clears both text
    fields and the note it returned stands first in the note list, before the
    notes that were there; from an empty list the list has length 1. *)
Theorem saveNote_success (c : Collab.t) (w : World.t) (u : User.t) (newNote : VoiceNote.t) :
  AppState.user (World.app w) = Some u ->
  Collab.notes_create c = Resolved newNote ->
  RecorderState.originalText (World.recorder w) <> [] ->
  RecorderState.correctedText (World.recorder w) <> [] ->
  let w' := exec (VoiceRecorder.saveNote (App.addNote c)) w in
  RecorderState.originalText (World.recorder w') = []
  /\ RecorderState.correctedText (World.recorder w') = []
  /\ AppState.notes (World.app w') = newNote :: AppState.notes (World.app w)
  /\ (AppState.notes (World.app w) = [] ->
      length (AppState.notes (World.app w')) = 1%nat
      /\ head (AppState.notes (World.app w')) = Some newNote)
  /\ World.trace w'
     = World.trace w
       ++ [NotesCreate (NoteRecord.mk (RecorderState.originalText (World.recorder w))
                          (RecorderState.correctedText (World.recorder w))
                          (User.id u) (Collab.now c));
           ToastSuccess (Js.lit "Note saved!")].
Proof.
  intros Hu Hc Ho Hk. apply truthy_nonempty in Ho, Hk.
  unfold VoiceRecorder.saveNote, App.addNote, App.user_id. run_handler.
  rewrite Ho, Hk. simpl. rewrite Hu. simpl. rewrite Hc. simpl.
  split; [reflexivity |]. split; [reflexivity |]. split; [reflexivity |].
  split.
  - intros ->. split; reflexivity.
  - rewrite <- !app_assoc. reflexivity.
Qed.

Lemma saveNote_success_witness :
  AppState.notes
    (World.app (exec (VoiceRecorder.saveNote (App.addNote Sample.ok)) Sample.ready))
  = [Sample.note].
Proof.
  apply (saveNote_success Sample.ok Sample.ready Sample.user Sample.note);
    [reflexivity | reflexivity | discriminate | discriminate].
Defined.

(** ** Transcription *)

(** C6.  When the transcription fails (the audio cannot be read, or the
    provider rejects), [transcribeAudio] completes normally and leaves the
    recorder state as it was with [isTranscribing] off: [originalText] and
    [correctedText] are not set, the blob stored by [onstop] and the recorded
    chunks are still there.  At most one transcription request was sent, no
    correction request, and the failure was logged and shown.  After the stop
    event as a whole, the state holds the blob that was being transcribed. *)
Theorem transcribeAudio_failure (c : Collab.t) (dictionary : list DictionaryEntry.t)
    (blob : Blob.t) (rec : Recorder.t) (w : World.t) (e : Js.str) :
  Collab.readAsDataURL c = Rejected e
  \/ (exists dataUrl, Collab.readAsDataURL c = Resolved dataUrl)
     /\ Collab.transcribeAudio c = Rejected e ->
  let r := World.recorder w in
  let w' := exec (VoiceRecorder.transcribeAudio c dictionary blob) w in
  let r' := World.recorder w' in
  result (VoiceRecorder.transcribeAudio c dictionary blob) w = Normal tt
  /\ RecorderState.isTranscribing r' = false
  /\ RecorderState.isProcessing r' = RecorderState.isProcessing r
  /\ RecorderState.isRecording r' = RecorderState.isRecording r
  /\ RecorderState.originalText r' = RecorderState.originalText r
  /\ RecorderState.correctedText r' = RecorderState.correctedText r
  /\ RecorderState.audioBlob r' = RecorderState.audioBlob r
  /\ RecorderState.audioChunks r' = RecorderState.audioChunks r
  /\ World.trace w'
     = World.trace w
       ++ match Collab.readAsDataURL c with
          | Resolved dataUrl =>
              [AiTranscribeAudio (VoiceRecorder.base64_of dataUrl) (Js.lit "en")]
          | Rejected _ => []
          end
       ++ [ConsoleError (Js.lit "Error transcribing audio:") e;
           ToastError (Js.lit "Failed to transcribe audio")]
  /\ RecorderState.audioBlob (World.recorder (exec (VoiceRecorder.onstop c rec) w))
     = Some (Blob.mk (RecorderState.audioChunks r) (Js.lit "audio/wav")).
Proof.
  intros H. unfold VoiceRecorder.onstop, VoiceRecorder.transcribeAudio. run_handler.
  destruct H as [H | [[dataUrl H] H']].
  - rewrite H. simpl. repeat split. rewrite <- !app_assoc. reflexivity.
  - rewrite H. simpl. rewrite H'. simpl. repeat split.
    rewrite <- !app_assoc. reflexivity.
Qed.

Lemma transcribeAudio_failure_witness :
  RecorderState.originalText
    (World.recorder
       (exec (VoiceRecorder.transcribeAudio Sample.transcription_down []
                (Blob.mk [[82; 73; 70; 70]] (Js.lit "audio/wav"))) Sample.ready))
  = RecorderState.originalText (World.recorder Sample.ready).
Proof.
  apply (transcribeAudio_failure Sample.transcription_down []
           (Blob.mk [[82; 73; 70; 70]] (Js.lit "audio/wav"))
           (Recorder.mk 0 []) Sample.ready (Js.lit "503")).
  right. split; [eexists; reflexivity | reflexivity].
Defined.

(** ** Re-correction *)

(** The claim C7 fails where the original text was edited: record, stop
    (the transcript is "helo world"), replace the original text by "bye",
    then ask for a new correction.  The request carries "bye", not the
    transcript. *)
Lemma reprocessText_reads_edited_original :
  let w1 := RecordTab.run [(Sample.ok, RecordTab.ClickRecord);
                           (Sample.ok, RecordTab.ClickRecord)] Sample.world in
  let w2 := RecordTab.run [(Sample.ok, RecordTab.EditOriginal (Js.lit "bye"))] w1 in
  let w3 := RecordTab.run [(Sample.ok, RecordTab.ClickReprocess)] w2 in
  RecorderState.originalText (World.recorder w1) = Js.lit "helo world"
  /\ World.trace w3
     = World.trace w2
       ++ [AiGenerateText (VoiceRecorder.prompt [] (Js.lit "bye"))
             (Js.lit "gpt-4o-mini") 500]
  /\ ~ In (AiGenerateText (VoiceRecorder.prompt [] (Js.lit "helo world"))
             (Js.lit "gpt-4o-mini") 500)
          (drop (length (World.trace w2)) (World.trace w3)).
Proof.
  vm_compute. split; [reflexivity |]. split; [reflexivity |].
  intros [H | []]. discriminate H.
Qed.

(** C7, amended.  [reprocessText] corrects the current [originalText], edits
    to that field included.  When it is empty no request is sent.  Otherwise
    exactly one request goes out, built from the current [originalText] and
    dictionary; [originalText] stays as it is, and [correctedText] becomes
    the trimmed answer (or [originalText] when the provider rejects),
    whatever [correctedText] held before: asking again after editing
    [correctedText] gives the same text. *)
Theorem reprocessText_spec (c : Collab.t) (w : World.t) :
  let original := RecorderState.originalText (World.recorder w) in
  let w' := exec (VoiceRecorder.reprocessText c) w in
  (original = [] ->
   w' = with_trace (fun t => t ++ [ToastError (Js.lit "No text to reprocess")]) w)
  /\ (original <> [] ->
      RecorderState.originalText (World.recorder w') = original
      /\ World.trace w'
         = World.trace w
           ++ AiGenerateText
                (VoiceRecorder.prompt (AppState.dictionary (World.app w)) original)
                (Js.lit "gpt-4o-mini") 500
           :: match Collab.generateText c with
              | Resolved _ => []
              | Rejected e => [ConsoleError (Js.lit "Error correcting text:") e;
                               ToastError (Js.lit "Failed to correct text")]
              end
      /\ RecorderState.correctedText (World.recorder w')
         = match Collab.generateText c with
           | Resolved corrected => Js.trim corrected
           | Rejected _ => original
           end
      /\ forall edited,
           RecorderState.correctedText
             (World.recorder
                (exec (VoiceRecorder.reprocessText c) (exec (setCorrectedText edited) w)))
           = RecorderState.correctedText (World.recorder w')).
Proof.
  unfold VoiceRecorder.reprocessText, VoiceRecorder.correctText. run_handler. split.
  - intros H. rewrite H. simpl. reflexivity.
  - intros H. apply truthy_nonempty in H. rewrite H. simpl.
    destruct (Collab.generateText c); simpl; repeat split;
      rewrite <- ?app_assoc; reflexivity.
Qed.

Lemma reprocessText_spec_witness :
  RecorderState.originalText
    (World.recorder (exec (VoiceRecorder.reprocessText Sample.ok) Sample.ready))
  = RecorderState.originalText (World.recorder Sample.ready).
Proof.
  pose proof (proj2 (reprocessText_spec Sample.ok Sample.ready)) as H.
  refine (proj1 (H _)). discriminate.
Defined.

(** ** Deleting a note *)

(** C9.  [handleDeleteNote] clears the selection whenever the selected note
    has the id given, and leaves any other selection alone.  When the Note
    Store deletes the note, the note list keeps exactly the notes with
    another id, in order, so none with that id is left; when the store
    rejects, the list is untouched. *)
Theorem handleDeleteNote_spec (c : Collab.t) (id : Js.str) (w : World.t) :
  let w' := exec (History.handleDeleteNote (App.deleteNote c) id) w in
  (forall n, HistoryState.selectedNote (World.history w) = Some n ->
             VoiceNote.id n = id ->
             HistoryState.selectedNote (World.history w') = None)
  /\ (forall n, HistoryState.selectedNote (World.history w) = Some n ->
                VoiceNote.id n <> id ->
                HistoryState.selectedNote (World.history w') = Some n)
  /\ (Collab.notes_delete c = Resolved tt ->
      AppState.notes (World.app w')
      = filter (fun note => VoiceNote.id note ≠ id) (AppState.notes (World.app w))
      /\ forall n, n ∈ AppState.notes (World.app w') -> VoiceNote.id n <> id)
  /\ (forall e, Collab.notes_delete c = Rejected e ->
      AppState.notes (World.app w') = AppState.notes (World.app w)).
Proof.
  unfold History.handleDeleteNote, App.deleteNote, History.selected_is, Js.eqb.
  run_handler.
  assert (Hkept : forall n,
    n ∈ filter (fun note => VoiceNote.id note ≠ id) (AppState.notes (World.app w)) ->
    VoiceNote.id n <> id).
  { intros n Hin. apply list_elem_of_filter in Hin. tauto. }
  destruct (HistoryState.selectedNote (World.history w)) as [sel|] eqn:Hsel; simpl.
  - destruct (bool_decide_reflect (VoiceNote.id sel = id)) as [Heq | Hne];
      destruct (Collab.notes_delete c) as [[]|e]; simpl; rewrite ?Hsel;
      (split; [intros n [= <-] ?; try reflexivity; tauto |]);
      (split; [intros n [= <-] ?; try reflexivity; tauto |]);
      (split; [try discriminate; auto |]);
      try discriminate; auto.
  - destruct (Collab.notes_delete c) as [[]|e]; simpl;
      (split; [discriminate |]); (split; [discriminate |]);
      (split; [try discriminate; auto |]);
      try discriminate; auto.
Qed.

Lemma handleDeleteNote_spec_witness :
  HistoryState.selectedNote
    (World.history
       (exec (History.handleDeleteNote (App.deleteNote Sample.ok) (Js.lit "n1"))
             Sample.browsing))
  = None
  /\ AppState.notes
       (World.app
          (exec (History.handleDeleteNote (App.deleteNote Sample.ok) (Js.lit "n1"))
                Sample.browsing))
     = [Sample.older].
Proof.
  pose proof (handleDeleteNote_spec Sample.ok (Js.lit "n1") Sample.browsing)
    as [Hsel [_ [Hdel _]]].
  split.
  - apply (Hsel Sample.note); reflexivity.
  - rewrite (proj1 (Hdel eq_refl)). vm_compute. reflexivity.
Defined.

(** ** Sorting *)

Section Sort.
Context {A : Type}.
Variable cmp : A -> A -> Z.
Hypothesis cmp_total : forall a b, (cmp a b <= 0 \/ cmp b a <= 0)%Z.
Hypothesis cmp_trans : forall a b c, (cmp a b <= 0 -> cmp b c <= 0 -> cmp a c <= 0)%Z.

Lemma sort_insert_perm (x : A) (l : list A) : sort_insert cmp x l ≡ₚ x :: l.
Proof.
  induction l as [|y l IH]; simpl; [reflexivity |].
  destruct (cmp x y <=? 0)%Z; [reflexivity |].
  rewrite IH. apply Permutation_swap.
Qed.

Lemma sort_perm (l : list A) : sort cmp l ≡ₚ l.
Proof.
  induction l as [|x l IH]; simpl; [reflexivity |].
  rewrite sort_insert_perm, IH. reflexivity.
Qed.

Lemma sort_insert_sorted (x : A) (l : list A) :
  StronglySorted (cmp_le cmp) l -> StronglySorted (cmp_le cmp) (sort_insert cmp x l).
Proof using cmp_total cmp_trans.
  induction l as [|y l IH]; simpl; intros Hl.
  - repeat constructor.
  - apply StronglySorted_inv in Hl as [Hl Hy].
    destruct (Z.leb_spec (cmp x y) 0) as [Hxy | Hxy].
    + constructor; [constructor; assumption |].
      constructor; [exact Hxy |].
      eapply Forall_impl; [exact Hy |].
      intros z Hz. exact (cmp_trans _ _ _ Hxy Hz).
    + constructor; [apply IH; exact Hl |].
      rewrite sort_insert_perm. constructor; [| exact Hy].
      destruct (cmp_total x y) as [H | H]; [lia | exact H].
Qed.

Lemma sort_sorted (l : list A) : StronglySorted (cmp_le cmp) (sort cmp l).
Proof using cmp_total cmp_trans.
  induction l as [|x l IH]; simpl; [constructor | apply sort_insert_sorted, IH].
Qed.

(** The sort keeps a sorted list as it is: equal keys are not reordered. *)
Lemma sort_of_sorted (l : list A) : StronglySorted (cmp_le cmp) l -> sort cmp l = l.
Proof.
  induction l as [|x l IH]; simpl; intros Hl; [reflexivity |].
  apply StronglySorted_inv in Hl as [Hl Hx]. rewrite (IH Hl).
  destruct l as [|y l]; simpl; [reflexivity |].
  apply Forall_inv in Hx. unfold cmp_le in Hx.
  destruct (Z.leb_spec (cmp x y) 0); [reflexivity | lia].
Qed.
End Sort.

(** Entries with equal words keep their order; the new entry goes last among
    its equals. *)
Example sort_stable :
  sort (App.by_word Sample.compare_units)
       [Sample.zebra; Sample.entry;
        DictionaryEntry.mk (Js.lit "d2") (Js.lit "nukular") (Js.lit "Nuclear")
                           (Js.lit "u1") (Js.lit "2024-05-02T10:00:00.000Z")]
  = [Sample.entry;
     DictionaryEntry.mk (Js.lit "d2") (Js.lit "nukular") (Js.lit "Nuclear")
                        (Js.lit "u1") (Js.lit "2024-05-02T10:00:00.000Z");
     Sample.zebra].
Proof. vm_compute. reflexivity. Qed.

(** ** The dictionary *)

(** In a sorted list every element stands in the relation to every later
    one. *)
Lemma StronglySorted_lookup_lt {A} (R : relation A) (l : list A) (i j : nat) (a b : A) :
  StronglySorted R l -> (i < j)%nat -> l !! i = Some a -> l !! j = Some b -> R a b.
Proof.
  intros Hl. revert i j. induction Hl as [|x l Hl IH Hx]; intros i j Hij Hi Hj.
  - discriminate Hi.
  - destruct j as [|j]; [lia |]. simpl in Hj. destruct i as [|i]; simpl in Hi.
    + injection Hi as <-. rewrite Forall_forall in Hx.
      apply Hx. apply list_elem_of_lookup_2 in Hj. exact Hj.
    + apply (IH i j); [lia | assumption | assumption].
Qed.

Section DictionaryAdd.
Variable toLowerCase : Js.str -> Js.str.
Variable localeCompare : Js.str -> Js.str -> Z.
Hypothesis localeCompare_total :
  forall a b, (localeCompare a b <= 0 \/ localeCompare b a <= 0)%Z.
Hypothesis localeCompare_trans :
  forall a b c, (localeCompare a b <= 0 -> localeCompare b c <= 0 ->
                 localeCompare a c <= 0)%Z.

Lemma sort_by_word_sorted (l : list DictionaryEntry.t) :
  sorted_by_word localeCompare (sort (App.by_word localeCompare) l).
Proof using localeCompare_total localeCompare_trans.
  apply (sort_sorted (App.by_word localeCompare)); unfold App.by_word; auto.
  intros a b c. apply localeCompare_trans.
Qed.

(** C2.  [addDictionaryEntry] hands the store a record whose word is
    [word.toLowerCase()], lower-cased before the create call goes out (and
    no record at all while nobody is signed in).  When the store resolves,
    the dictionary becomes the old entries and the returned one, ascending by
    word: the word of every entry compares lower than or equal to the word of
    every later entry under [localeCompare].  Otherwise it stays as it was.
    So the dictionary is sorted after every successful add, and stays sorted
    after every add. *)
Theorem addDictionaryEntry_spec (c : Collab.t) (word correctSpelling : Js.str)
    (w : World.t) :
  let w' := exec (App.addDictionaryEntry toLowerCase localeCompare c word correctSpelling) w in
  let prev := AppState.dictionary (World.app w) in
  let dictionary' := AppState.dictionary (World.app w') in
  World.trace w'
  = World.trace w
    ++ match AppState.user (World.app w) with
       | Some u =>
           EntriesCreate (EntryRecord.mk (toLowerCase word) correctSpelling
                            (User.id u) (Collab.now c))
           :: match Collab.entries_create c with
              | Resolved _ => []
              | Rejected e =>
                  [ConsoleError (Js.lit "Error adding dictionary entry:") e]
              end
       | None =>
           [ConsoleError (Js.lit "Error adding dictionary entry:") (Js.lit "TypeError")]
       end
  /\ dictionary'
     = match AppState.user (World.app w), Collab.entries_create c with
       | Some _, Resolved newEntry => sort (App.by_word localeCompare) (prev ++ [newEntry])
       | _, _ => prev
       end
  /\ (forall u newEntry,
        AppState.user (World.app w) = Some u ->
        Collab.entries_create c = Resolved newEntry ->
        dictionary' ≡ₚ newEntry :: prev
        /\ sorted_by_word localeCompare dictionary'
        /\ forall i j a b,
             (i < j)%nat -> dictionary' !! i = Some a -> dictionary' !! j = Some b ->
             (localeCompare (DictionaryEntry.word a) (DictionaryEntry.word b) <= 0)%Z)
  /\ (sorted_by_word localeCompare prev -> sorted_by_word localeCompare dictionary').
Proof using localeCompare_total localeCompare_trans.
  unfold App.addDictionaryEntry, App.user_id. run_handler.
  destruct (AppState.user (World.app w)) as [u|]; simpl.
  - destruct (Collab.entries_create c) as [newEntry|e]; simpl.
    + split; [reflexivity |]. split; [reflexivity |]. split.
      * intros _ _ _ [= <-]. split; [| split; [apply sort_by_word_sorted |]].
        -- rewrite sort_perm. symmetry. apply Permutation_cons_append.
        -- intros i j a b.
           apply (StronglySorted_lookup_lt (word_le localeCompare)).
           apply sort_by_word_sorted.
      * intros _. apply sort_by_word_sorted.
    + split; [rewrite <- app_assoc; reflexivity |]. split; [reflexivity |].
      split; [discriminate | auto].
  - split; [reflexivity |]. split; [reflexivity |]. split; [discriminate | auto].
Qed.

(** Through the form: nothing reaches the store while either field is
    blank, and otherwise the word handed on is the trimmed field. *)
Lemma handleAddEntry_validates (c : Collab.t) (w : World.t) :
  let newWord := DictionaryState.newWord (World.dict w) in
  let correctSpelling := DictionaryState.correctSpelling (World.dict w) in
  let add := App.addDictionaryEntry toLowerCase localeCompare c in
  let w' := exec (Dictionary.handleAddEntry add) w in
  (Js.trim newWord = [] \/ Js.trim correctSpelling = [] ->
   w' = with_trace
          (fun t => t ++ [ToastError (Js.lit "Please enter both word and correct spelling")]) w)
  /\ (Js.trim newWord <> [] -> Js.trim correctSpelling <> [] ->
      forall u, AppState.user (World.app w) = Some u ->
      exists rest,
        World.trace w'
        = World.trace w
          ++ EntriesCreate (EntryRecord.mk (toLowerCase (Js.trim newWord))
                              (Js.trim correctSpelling) (User.id u) (Collab.now c))
          :: rest).
Proof.
  unfold Dictionary.handleAddEntry, App.addDictionaryEntry, App.user_id.
  run_handler. split.
  - intros H.
    assert (E : negb (Js.truthy (Js.trim (DictionaryState.newWord (World.dict w))))
                || negb (Js.truthy (Js.trim (DictionaryState.correctSpelling (World.dict w))))
                = true).
    { destruct H as [H | H]; rewrite H; simpl; [reflexivity | apply orb_true_r]. }
    rewrite E. reflexivity.
  - intros Hw Hs u Hu. apply truthy_nonempty in Hw, Hs.
    rewrite Hw, Hs. simpl. rewrite Hu. simpl.
    destruct (Collab.entries_create c); simpl; rewrite <- ?app_assoc; simpl;
      eexists; reflexivity.
Qed.
End DictionaryAdd.

Lemma compare_units_total (a b : Js.str) :
  (Sample.compare_units a b <= 0 \/ Sample.compare_units b a <= 0)%Z.
Proof.
  revert b. induction a as [|x a IH]; intros [|y b]; simpl; try lia.
  destruct (N.ltb_spec x y), (N.ltb_spec y x); try lia. apply IH.
Qed.

Lemma compare_units_trans (a b c : Js.str) :
  (Sample.compare_units a b <= 0 -> Sample.compare_units b c <= 0 ->
   Sample.compare_units a c <= 0)%Z.
Proof.
  revert b c. induction a as [|x a IH]; intros [|y b] [|z c]; simpl; try lia.
  destruct (N.ltb_spec x y), (N.ltb_spec y x), (N.ltb_spec y z), (N.ltb_spec z y),
    (N.ltb_spec x z), (N.ltb_spec z x); try lia.
  apply IH.
Qed.

Lemma addDictionaryEntry_spec_witness :
  AppState.dictionary
    (World.app
       (exec (App.addDictionaryEntry Sample.ascii_lower Sample.compare_units Sample.ok
                (Js.lit "Nukular") (Js.lit "nuclear")) Sample.listed))
  ≡ₚ Sample.entry :: AppState.dictionary (World.app Sample.listed)
  /\ sorted_by_word Sample.compare_units
       (AppState.dictionary
          (World.app
             (exec (App.addDictionaryEntry Sample.ascii_lower Sample.compare_units Sample.ok
                      (Js.lit "Nukular") (Js.lit "nuclear")) Sample.listed))).
Proof.
  pose proof (proj1 (proj2 (proj2
    (addDictionaryEntry_spec Sample.ascii_lower Sample.compare_units
       compare_units_total compare_units_trans
       Sample.ok (Js.lit "Nukular") (Js.lit "nuclear") Sample.listed)))
    Sample.user Sample.entry eq_refl eq_refl) as (Hperm & Hsorted & _).
  split; [exact Hperm | exact Hsorted].
Defined.

Example addDictionaryEntry_run :
  let w' := exec (Dictionary.handleAddEntry
                    (App.addDictionaryEntry Sample.ascii_lower Sample.compare_units Sample.ok))
                 Sample.typed in
  World.trace w'
  = [EntriesCreate (EntryRecord.mk (Js.lit "nukular") (Js.lit "nuclear") (Js.lit "u1")
                      (Js.lit "2024-05-01T10:00:00.000Z"));
     ToastSuccess (Js.lit "Dictionary entry added!")]
  /\ AppState.dictionary (World.app w') = [Sample.entry; Sample.zebra].
Proof. split; reflexivity. Qed.

(** ** Recording sessions *)

Lemma bind_normal {A B} (m : M A) (k : A -> M B) (w w1 : World.t) (a : A) :
  m w = (Normal a, w1) -> bind m k w = k a w1.
Proof. intros H. unfold bind. rewrite H. reflexivity. Qed.

Lemma exec_get {A} (k : World.t -> M A) (w : World.t) :
  exec (bind get k) w = exec (k w) w.
Proof. reflexivity. Qed.

(** What the session invariant reads of a state. *)
Lemma settled_frame (w w' : World.t) :
  RecorderState.isRecording (World.recorder w')
  = RecorderState.isRecording (World.recorder w) ->
  RecorderState.isTranscribing (World.recorder w') = false ->
  RecorderState.isProcessing (World.recorder w') = false ->
  RecorderState.mediaRecorder (World.recorder w')
  = RecorderState.mediaRecorder (World.recorder w) ->
  World.media w' = World.media w ->
  settled w -> settled w'.
Proof.
  unfold settled. intros -> -> -> -> -> (_ & _ & H). auto.
Qed.

(** [stopRecording] does nothing unless [isRecording] is set. *)
Lemma stopRecording_idle (w : World.t) :
  RecorderState.isRecording (World.recorder w) = false ->
  VoiceRecorder.stopRecording w = (Normal tt, w).
Proof.
  intros H. unfold VoiceRecorder.stopRecording. run_handler. rewrite H.
  destruct (RecorderState.mediaRecorder (World.recorder w)); reflexivity.
Qed.

(** In a settled recording state it stops the one recorder and releases the
    one stream. *)
Lemma stopRecording_recording (w : World.t) (rec : Recorder.t) :
  RecorderState.isRecording (World.recorder w) = true ->
  RecorderState.mediaRecorder (World.recorder w) = Some rec ->
  Media.capturing (World.media w) = [Recorder.stream rec] ->
  Media.live (World.media w) = [Recorder.stream rec] ->
  exists w1,
    VoiceRecorder.stopRecording w = (Normal tt, w1)
    /\ World.media w1 = Media.mk (Media.granted (World.media w)) [] []
    /\ RecorderState.isRecording (World.recorder w1) = false
    /\ RecorderState.isTranscribing (World.recorder w1)
       = RecorderState.isTranscribing (World.recorder w)
    /\ RecorderState.isProcessing (World.recorder w1)
       = RecorderState.isProcessing (World.recorder w)
    /\ RecorderState.mediaRecorder (World.recorder w1) = Some rec.
Proof.
  intros Hr Hm Hc Hl.
  unfold VoiceRecorder.stopRecording, recorder_stop, stop_tracks. run_handler.
  rewrite Hm, Hr. simpl. rewrite Hc.
  rewrite bool_decide_eq_true_2 by apply list_elem_of_here. simpl.
  rewrite Hc, Hl, Hm.
  rewrite !filter_cons_False, !filter_nil by (intros H; apply H; reflexivity).
  eexists. repeat split.
Qed.

(** The stop event transcribes and corrects; it leaves the microphone and
    the recording flag alone and ends with nothing in flight. *)
Lemma onstop_frame (c : Collab.t) (rec : Recorder.t) (w : World.t) :
  let w' := exec (VoiceRecorder.onstop c rec) w in
  World.media w' = World.media w
  /\ RecorderState.isRecording (World.recorder w')
     = RecorderState.isRecording (World.recorder w)
  /\ RecorderState.mediaRecorder (World.recorder w')
     = RecorderState.mediaRecorder (World.recorder w)
  /\ RecorderState.isTranscribing (World.recorder w') = false
  /\ (RecorderState.isProcessing (World.recorder w) = false ->
      RecorderState.isProcessing (World.recorder w') = false).
Proof.
  unfold VoiceRecorder.onstop, VoiceRecorder.transcribeAudio, VoiceRecorder.correctText.
  run_handler.
  destruct (Collab.readAsDataURL c); simpl; [| auto 6].
  destruct (Collab.transcribeAudio c); simpl; [| auto 6].
  destruct (Collab.generateText c); simpl; auto 6.
Qed.

Lemma ondataavailable_frame (data : list N) (w : World.t) :
  exists w1,
    VoiceRecorder.ondataavailable data w = (Normal tt, w1)
    /\ World.media w1 = World.media w
    /\ RecorderState.isRecording (World.recorder w1)
       = RecorderState.isRecording (World.recorder w)
    /\ RecorderState.isTranscribing (World.recorder w1)
       = RecorderState.isTranscribing (World.recorder w)
    /\ RecorderState.isProcessing (World.recorder w1)
       = RecorderState.isProcessing (World.recorder w)
    /\ RecorderState.mediaRecorder (World.recorder w1)
       = RecorderState.mediaRecorder (World.recorder w).
Proof. eexists. unfold VoiceRecorder.ondataavailable. run_handler. repeat split. Qed.

(** A click on the round button while recording: the state after it. *)
Lemma click_while_recording (c : Collab.t) (w : World.t) :
  settled w ->
  RecorderState.isRecording (World.recorder w) = true ->
  let w' := exec (RecordTab.recordButton_onClick c) w in
  World.media w' = Media.mk (Media.granted (World.media w)) [] []
  /\ RecorderState.isRecording (World.recorder w') = false
  /\ RecorderState.isTranscribing (World.recorder w') = false
  /\ RecorderState.isProcessing (World.recorder w') = false.
Proof.
  intros (Ht & Hp & Hrec) Hr. rewrite Hr in Hrec.
  destruct Hrec as (rec & Hm & Hc & Hl).
  destruct (stopRecording_recording w rec Hr Hm Hc Hl)
    as (w1 & E1 & Hmedia1 & Hr1 & Ht1 & Hp1 & Hm1).
  destruct (ondataavailable_frame (Collab.recorded c) w1)
    as (w2 & E2 & Hmedia2 & Hr2 & Ht2 & Hp2 & Hm2).
  destruct (onstop_frame c rec w2) as (Hmedia3 & Hr3 & Hm3 & Ht3 & Hp3).
  assert (E : exec (RecordTab.recordButton_onClick c) w
              = exec (VoiceRecorder.onstop c rec) w2).
  { unfold RecordTab.recordButton_onClick, exec.
    rewrite (bind_normal get _ w w w) by reflexivity.
    rewrite Ht, Hp, Hr, Hm. simpl.
    rewrite (bind_normal _ _ w w1 tt E1).
    rewrite (bind_normal _ _ w1 w2 tt E2). reflexivity. }
  simpl. rewrite E.
  rewrite Hmedia3, Hmedia2, Hmedia1, Hr3, Hr2, Hr1, Ht3.
  repeat split. apply Hp3. congruence.
Qed.

(** [startRecording]: granted, it takes one fresh stream and starts one
    recorder on it; denied, it only reports. *)
Lemma startRecording_granted (c : Collab.t) (w : World.t) :
  Collab.getUserMedia c = Resolved tt ->
  let w' := exec (VoiceRecorder.startRecording c) w in
  let s := Media.granted (World.media w) in
  World.media w'
  = Media.mk (S s) (s :: Media.live (World.media w)) (s :: Media.capturing (World.media w))
  /\ RecorderState.mediaRecorder (World.recorder w')
     = Some (Recorder.mk s (AppState.dictionary (World.app w)))
  /\ RecorderState.isRecording (World.recorder w') = true
  /\ RecorderState.isTranscribing (World.recorder w')
     = RecorderState.isTranscribing (World.recorder w)
  /\ RecorderState.isProcessing (World.recorder w')
     = RecorderState.isProcessing (World.recorder w).
Proof.
  intros H.
  unfold VoiceRecorder.startRecording, acquire_stream, recorder_start.
  run_handler. rewrite H. simpl. repeat split.
Qed.

Lemma startRecording_denied (c : Collab.t) (w : World.t) (e : Js.str) :
  Collab.getUserMedia c = Rejected e ->
  let w' := exec (VoiceRecorder.startRecording c) w in
  World.media w' = World.media w /\ World.recorder w' = World.recorder w.
Proof.
  intros H.
  unfold VoiceRecorder.startRecording, acquire_stream, recorder_start.
  run_handler. rewrite H. simpl. repeat split.
Qed.

(** A click on the round button while idle. *)
Lemma click_while_idle (c : Collab.t) (w : World.t) :
  settled w ->
  RecorderState.isRecording (World.recorder w) = false ->
  let w' := exec (RecordTab.recordButton_onClick c) w in
  settled w'
  /\ (Media.granted (World.media w') <= S (Media.granted (World.media w)))%nat.
Proof.
  intros Hw Hr. pose proof Hw as (Ht & Hp & Hrec). rewrite Hr in Hrec.
  destruct Hrec as [Hc Hl].
  assert (E : exec (RecordTab.recordButton_onClick c) w
              = exec (VoiceRecorder.startRecording c) w).
  { unfold RecordTab.recordButton_onClick. rewrite exec_get.
    rewrite Ht, Hp, Hr. reflexivity. }
  simpl. rewrite E.
  destruct (Collab.getUserMedia c) as [[]|e] eqn:Hg.
  - destruct (startRecording_granted c w Hg) as (Hm' & Hmr' & Hr' & Ht' & Hp').
    unfold settled. rewrite Hm', Hmr', Hr', Ht', Hp', Hc, Hl. simpl.
    split; [| lia]. split; [exact Ht |]. split; [exact Hp |].
    eexists. split; [reflexivity |]. split; reflexivity.
  - destruct (startRecording_denied c w e Hg) as (Hm' & Hrec').
    unfold settled. rewrite Hm', Hrec'. split; [exact Hw | lia].
Qed.

Lemma reprocessText_frame (c : Collab.t) (w : World.t) :
  let w' := exec (VoiceRecorder.reprocessText c) w in
  World.media w' = World.media w
  /\ RecorderState.isRecording (World.recorder w')
     = RecorderState.isRecording (World.recorder w)
  /\ RecorderState.mediaRecorder (World.recorder w')
     = RecorderState.mediaRecorder (World.recorder w)
  /\ RecorderState.isTranscribing (World.recorder w')
     = RecorderState.isTranscribing (World.recorder w)
  /\ (RecorderState.isProcessing (World.recorder w) = false ->
      RecorderState.isProcessing (World.recorder w') = false).
Proof.
  unfold VoiceRecorder.reprocessText, VoiceRecorder.correctText. run_handler.
  destruct (Js.truthy (RecorderState.originalText (World.recorder w))); simpl; [| auto 6].
  destruct (Collab.generateText c); simpl; auto 6.
Qed.

Lemma saveNote_frame (c : Collab.t) (w : World.t) :
  let w' := exec (VoiceRecorder.saveNote (App.addNote c)) w in
  World.media w' = World.media w
  /\ RecorderState.isRecording (World.recorder w')
     = RecorderState.isRecording (World.recorder w)
  /\ RecorderState.mediaRecorder (World.recorder w')
     = RecorderState.mediaRecorder (World.recorder w)
  /\ RecorderState.isTranscribing (World.recorder w')
     = RecorderState.isTranscribing (World.recorder w)
  /\ RecorderState.isProcessing (World.recorder w')
     = RecorderState.isProcessing (World.recorder w).
Proof.
  unfold VoiceRecorder.saveNote, App.addNote, App.user_id. run_handler.
  destruct (negb (Js.truthy (RecorderState.originalText (World.recorder w)))
            || negb (Js.truthy (RecorderState.correctedText (World.recorder w))));
    simpl; [auto 6 |].
  destruct (AppState.user (World.app w)); simpl; [| auto 6].
  destruct (Collab.notes_create c); simpl; auto 6.
Qed.

(** Every interaction with the Record tab keeps it settled. *)
Lemma dispatch_settled (c : Collab.t) (e : RecordTab.event) (w : World.t) :
  settled w -> settled (exec (RecordTab.dispatch c e) w).
Proof.
  intros Hw. pose proof Hw as (Ht & Hp & Hrec).
  unfold RecordTab.dispatch. rewrite exec_get.
  destruct e.
  - (* the round button *)
    destruct (RecorderState.isRecording (World.recorder w)) eqn:Hr.
    + destruct (click_while_recording c w Hw Hr) as (Hm' & Hr' & Ht' & Hp').
      unfold settled. rewrite Hm', Hr', Ht', Hp'. simpl. auto.
    + apply (click_while_idle c w Hw Hr).
  - (* editing the original text *)
    destruct (Js.truthy (RecorderState.originalText (World.recorder w))); exact Hw.
  - (* editing the corrected text *)
    destruct (Js.truthy (RecorderState.correctedText (World.recorder w))); exact Hw.
  - (* re-correct *)
    destruct (Js.truthy (RecorderState.correctedText (World.recorder w))
              && negb (RecorderState.isProcessing (World.recorder w))); [| exact Hw].
    destruct (reprocessText_frame c w) as (Hm' & Hr' & Hmr' & Ht' & Hp').
    apply (settled_frame w); auto; congruence.
  - (* save *)
    destruct (Js.truthy (RecorderState.originalText (World.recorder w))
              && Js.truthy (RecorderState.correctedText (World.recorder w))); [| exact Hw].
    destruct (saveNote_frame c w) as (Hm' & Hr' & Hmr' & Ht' & Hp').
    apply (settled_frame w); auto; congruence.
Qed.

Lemma run_settled (evs : list (Collab.t * RecordTab.event)) (w : World.t) :
  settled w -> settled (RecordTab.run evs w).
Proof.
  unfold RecordTab.run. revert w.
  induction evs as [|[c e] evs IH]; simpl; intros w Hw; [exact Hw |].
  apply IH, dispatch_settled, Hw.
Qed.

Lemma initial_settled (a : AppState.t) : settled (RecordTab.initial a).
Proof. unfold settled. simpl. auto. Qed.

Lemma settled_sessions (w : World.t) :
  settled w ->
  (RecordTab.sessions w <= 1)%nat /\ (length (Media.live (World.media w)) <= 1)%nat.
Proof.
  unfold settled, RecordTab.sessions. intros (_ & _ & H).
  destruct (RecorderState.isRecording (World.recorder w)).
  - destruct H as (rec & _ & -> & ->). simpl. lia.
  - destruct H as [-> ->]. simpl. lia.
Qed.

(** [startRecording] itself has no guard: run again in a state that is
    recording, it is granted a second stream and starts a second recorder
    next to the first. *)
Lemma startRecording_while_recording :
  let w1 := exec (VoiceRecorder.startRecording Sample.ok) Sample.world in
  let w2 := exec (VoiceRecorder.startRecording Sample.ok) w1 in
  RecorderState.isRecording (World.recorder w1) = true
  /\ RecordTab.sessions w1 = 1%nat
  /\ Media.granted (World.media w1) = 1%nat
  /\ RecordTab.sessions w2 = 2%nat
  /\ Media.granted (World.media w2) = 2%nat
  /\ w2 <> w1.
Proof.
  vm_compute. repeat (split; [reflexivity |]). discriminate.
Qed.

(** What the toggle on the round button achieves when the handlers are
    serialised, each run to its end before the next click: the tab never
    runs [startRecording] while [isRecording] is set, every state reached
    from the mounted tab has at most one recorder recording and at most one
    live stream, and one click acquires the device at most once.
    [stopRecording] while idle changes nothing. *)
Lemma record_sessions_serialised (a : AppState.t) (evs : list (Collab.t * RecordTab.event)) :
  let w := RecordTab.run evs (RecordTab.initial a) in
  (RecordTab.sessions w <= 1)%nat
  /\ (length (Media.live (World.media w)) <= 1)%nat
  /\ (forall c,
        RecorderState.isRecording (World.recorder w) = true ->
        exec (RecordTab.dispatch c RecordTab.ClickRecord) w
        = exec (VoiceRecorder.stopRecording;;;
                match RecorderState.mediaRecorder (World.recorder w) with
                | Some rec => VoiceRecorder.ondataavailable (Collab.recorded c);;;
                              VoiceRecorder.onstop c rec
                | None => ret tt
                end) w
        /\ Media.granted (World.media (exec (RecordTab.dispatch c RecordTab.ClickRecord) w))
           = Media.granted (World.media w))
  /\ (forall c,
        (Media.granted (World.media (exec (RecordTab.dispatch c RecordTab.ClickRecord) w))
         <= S (Media.granted (World.media w)))%nat)
  /\ (forall w0,
        RecorderState.isRecording (World.recorder w0) = false ->
        VoiceRecorder.stopRecording w0 = (Normal tt, w0)).
Proof.
  intros w.
  assert (Hw : settled w) by apply run_settled, initial_settled.
  destruct (settled_sessions w Hw) as [Hs Hl].
  assert (Hd : forall c, exec (RecordTab.dispatch c RecordTab.ClickRecord) w
                         = exec (RecordTab.recordButton_onClick c) w).
  { intros c. unfold RecordTab.dispatch. rewrite exec_get. reflexivity. }
  split; [exact Hs |]. split; [exact Hl |].
  split; [| split; [| exact stopRecording_idle]].
  - intros c Hr. rewrite Hd. split.
    + destruct Hw as (Ht & Hp & _).
      unfold RecordTab.recordButton_onClick. rewrite exec_get.
      rewrite Ht, Hp, Hr. reflexivity.
    + destruct (click_while_recording c w Hw Hr) as (Hm' & _). rewrite Hm'. reflexivity.
  - intros c. rewrite Hd.
    destruct (RecorderState.isRecording (World.recorder w)) eqn:Hr.
    + destruct (click_while_recording c w Hw Hr) as (Hm' & _). rewrite Hm'. simpl. lia.
    + apply (click_while_idle c w Hw Hr).
Qed.

(** ** Two clicks before the microphone answers *)

(** Cutting [startRecording] at its await gives the same handler. *)
Lemma startRecording_split (c : Collab.t) (w : World.t) :
  VoiceRecorder.startRecording c w
  = bind AsyncRecord.startRecording_begin
         (AsyncRecord.startRecording_settle (Collab.getUserMedia c)) w.
Proof.
  unfold VoiceRecorder.startRecording, AsyncRecord.startRecording_begin,
    AsyncRecord.startRecording_settle, acquire_stream, recorder_start.
  run_handler. destruct (Collab.getUserMedia c) as [[]|e]; reflexivity.
Qed.

(** A click whose request is answered before anything else happens is the
    serialised click. *)
Lemma click_then_settle (c : Collab.t) (w : World.t) :
  AsyncRecord.world
    (AsyncRecord.run [AsyncRecord.Click c;
                      AsyncRecord.MicrophoneSettles (Collab.getUserMedia c)]
                     (AsyncRecord.mk w []))
  = exec (RecordTab.recordButton_onClick c) w.
Proof.
  unfold AsyncRecord.run. cbn [foldl]. unfold AsyncRecord.step.
  cbn [AsyncRecord.world AsyncRecord.pending].
  destruct (RecorderState.isTranscribing (World.recorder w)
            || RecorderState.isProcessing (World.recorder w)
            || RecorderState.isRecording (World.recorder w)) eqn:Hbusy.
  - reflexivity.
  - apply orb_false_elim in Hbusy as [Hbusy Hr].
    assert (E : exec (RecordTab.recordButton_onClick c) w
                = exec (VoiceRecorder.startRecording c) w).
    { unfold RecordTab.recordButton_onClick. rewrite exec_get.
      rewrite Hbusy, Hr. reflexivity. }
    rewrite E. unfold exec. rewrite startRecording_split.
    unfold AsyncRecord.startRecording_begin. run_handler. reflexivity.
Qed.

(** [stopRecording] stops the recorder in the ref and the tracks of its
    stream, and no others. *)
Lemma stopRecording_stops (w : World.t) (rec : Recorder.t) :
  RecorderState.isRecording (World.recorder w) = true ->
  RecorderState.mediaRecorder (World.recorder w) = Some rec ->
  Recorder.stream rec ∈ Media.capturing (World.media w) ->
  exists w1,
    VoiceRecorder.stopRecording w = (Normal tt, w1)
    /\ World.media w1
       = Media.mk (Media.granted (World.media w))
           (filter (fun x => x ≠ Recorder.stream rec) (Media.live (World.media w)))
           (filter (fun x => x ≠ Recorder.stream rec) (Media.capturing (World.media w)))
    /\ RecorderState.isRecording (World.recorder w1) = false.
Proof.
  intros Hr Hm Hc.
  unfold VoiceRecorder.stopRecording, recorder_stop, stop_tracks. run_handler.
  rewrite Hm, Hr. simpl.
  rewrite bool_decide_eq_true_2 by exact Hc. simpl.
  eexists. repeat split.
Qed.

(** A click that stops, in a state that may hold more than one recorder. *)
Lemma click_stops_one (c : Collab.t) (w : World.t) (rec : Recorder.t) :
  RecorderState.isTranscribing (World.recorder w) = false ->
  RecorderState.isProcessing (World.recorder w) = false ->
  RecorderState.isRecording (World.recorder w) = true ->
  RecorderState.mediaRecorder (World.recorder w) = Some rec ->
  Recorder.stream rec ∈ Media.capturing (World.media w) ->
  let w' := exec (RecordTab.recordButton_onClick c) w in
  World.media w'
  = Media.mk (Media.granted (World.media w))
      (filter (fun x => x ≠ Recorder.stream rec) (Media.live (World.media w)))
      (filter (fun x => x ≠ Recorder.stream rec) (Media.capturing (World.media w)))
  /\ RecorderState.isRecording (World.recorder w') = false.
Proof.
  intros Ht Hp Hr Hm Hc.
  destruct (stopRecording_stops w rec Hr Hm Hc) as (w1 & E1 & Hmedia1 & Hr1).
  destruct (ondataavailable_frame (Collab.recorded c) w1)
    as (w2 & E2 & Hmedia2 & Hr2 & _).
  destruct (onstop_frame c rec w2) as (Hmedia3 & Hr3 & _).
  assert (E : exec (RecordTab.recordButton_onClick c) w
              = exec (VoiceRecorder.onstop c rec) w2).
  { unfold RecordTab.recordButton_onClick, exec.
    rewrite (bind_normal get _ w w w) by reflexivity.
    rewrite Ht, Hp, Hr, Hm. simpl.
    rewrite (bind_normal _ _ w w1 tt E1).
    rewrite (bind_normal _ _ w1 w2 tt E2). reflexivity. }
  simpl. rewrite E, Hmedia3, Hmedia2, Hmedia1, Hr3, Hr2, Hr1. split; reflexivity.
Qed.

(** C4, as the code runs.  Two clicks on the round button before the first
    [getUserMedia] promise settles both reach [startRecording]: after the
    first click nothing but the trace has changed, so the button is still
    bound to it.  When both promises resolve, the device has been acquired
    twice, two recorders are recording at once and the ref holds only the
    second.  The next click stops that one alone: the first recorder goes on
    recording on a live stream with [isRecording] off and nothing left to
    stop it. *)
Theorem double_click_two_sessions (a : AppState.t) (c1 c2 c3 : Collab.t) :
  let s1 := AsyncRecord.run [AsyncRecord.Click c1] (AsyncRecord.initial a) in
  let s := AsyncRecord.run [AsyncRecord.Click c2;
                            AsyncRecord.MicrophoneSettles (Resolved tt);
                            AsyncRecord.MicrophoneSettles (Resolved tt)] s1 in
  let w := AsyncRecord.world s in
  let w' := AsyncRecord.world (AsyncRecord.run [AsyncRecord.Click c3] s) in
  (World.recorder (AsyncRecord.world s1) = World.recorder (RecordTab.initial a)
   /\ World.trace (AsyncRecord.world s1) = [GetUserMedia])
  /\ (RecordTab.sessions w = 2%nat
      /\ Media.capturing (World.media w) = [1%nat; 0%nat]
      /\ Media.live (World.media w) = [1%nat; 0%nat]
      /\ Media.granted (World.media w) = 2%nat
      /\ RecorderState.isRecording (World.recorder w) = true
      /\ RecorderState.mediaRecorder (World.recorder w)
         = Some (Recorder.mk 1 (AppState.dictionary a))
      /\ World.trace w
         = [GetUserMedia; GetUserMedia;
            ToastSuccess (Js.lit "Recording started");
            ToastSuccess (Js.lit "Recording started")])
  /\ (RecorderState.isRecording (World.recorder w') = false
      /\ Media.capturing (World.media w') = [0%nat]
      /\ Media.live (World.media w') = [0%nat]
      /\ RecordTab.sessions w' = 1%nat).
Proof.
  assert (Es : AsyncRecord.run [AsyncRecord.Click c2;
                                AsyncRecord.MicrophoneSettles (Resolved tt);
                                AsyncRecord.MicrophoneSettles (Resolved tt)]
                 (AsyncRecord.run [AsyncRecord.Click c1] (AsyncRecord.initial a))
               = AsyncRecord.mk
                   (World.mk a
                      (RecorderState.mk true false false [] [] None
                         (Some (Recorder.mk 1 (AppState.dictionary a))) [])
                      (HistoryState.mk None) (DictionaryState.mk [] [] false)
                      (Media.mk 2 [1%nat; 0%nat] [1%nat; 0%nat])
                      [GetUserMedia; GetUserMedia;
                       ToastSuccess (Js.lit "Recording started");
                       ToastSuccess (Js.lit "Recording started")])
                   []).
  { vm_compute. reflexivity. }
  cbv zeta. rewrite Es. clear Es.
  split; [vm_compute; split; reflexivity |].
  split; [vm_compute; repeat split |].
  unfold AsyncRecord.run. cbn [foldl]. unfold AsyncRecord.step.
  cbn [AsyncRecord.world AsyncRecord.pending World.recorder
       RecorderState.isTranscribing RecorderState.isProcessing
       RecorderState.isRecording orb].
  match goal with
  | |- context [exec (RecordTab.recordButton_onClick c3) ?W] =>
      destruct (click_stops_one c3 W (Recorder.mk 1 (AppState.dictionary a)))
        as (Hmedia & Hrec);
        [reflexivity | reflexivity | reflexivity | reflexivity | apply list_elem_of_here |]
  end.
  unfold RecordTab.sessions. rewrite Hmedia, Hrec. vm_compute. repeat split.
Qed.

(** * Further properties *)

(** ** The note list of the History tab *)

Lemma ellipsis_length : length (Js.lit "...") = 3%nat.
Proof. reflexivity. Qed.

(** X1.  [truncateText] returns a short text as it is; a longer one is cut
    to [maxLength] units followed by three dots.  So the result is never
    longer than [maxLength + 3], agrees with the text on its first
    [maxLength] units, and truncating again changes nothing. *)
Theorem truncateText_spec (text : Js.str) (maxLength : nat) :
  (length (HistoryView.truncateText text maxLength) <= maxLength + 3)%nat
  /\ take maxLength (HistoryView.truncateText text maxLength) = take maxLength text
  /\ ((length text <= maxLength)%nat -> HistoryView.truncateText text maxLength = text)
  /\ ((maxLength < length text)%nat ->
      HistoryView.truncateText text maxLength = take maxLength text ++ Js.lit "...")
  /\ HistoryView.truncateText (HistoryView.truncateText text maxLength) maxLength
     = HistoryView.truncateText text maxLength.
Proof.
  unfold HistoryView.truncateText.
  destruct (Nat.leb_spec (length text) maxLength) as [Hle | Hlt].
  - rewrite (proj2 (Nat.leb_le _ _) Hle).
    repeat split; auto; lia.
  - assert (Hlen : length (take maxLength text) = maxLength)
      by (rewrite length_take; lia).
    assert (Hlong : (length (take maxLength text ++ Js.lit "...") <=? maxLength)%nat = false).
    { apply Nat.leb_gt. rewrite length_app, Hlen, ellipsis_length. lia. }
    rewrite Hlong.
    assert (Htake : take maxLength (take maxLength text ++ Js.lit "...")
                    = take maxLength text).
    { rewrite take_app_le by lia. rewrite take_ge by lia. reflexivity. }
    rewrite Htake.
    repeat split; auto.
    + rewrite length_app, Hlen, ellipsis_length. lia.
    + lia.
Qed.

Lemma truncateText_spec_witness :
  HistoryView.truncateText (Js.lit "a long note, cut here") 11
  = take 11 (Js.lit "a long note, cut here") ++ Js.lit "...".
Proof.
  refine (proj1 (proj2 (proj2 (proj2
            (truncateText_spec (Js.lit "a long note, cut here") 11)))) _).
  vm_compute. lia.
Defined.

(** X2.  The line shown for a note is cut from its corrected text, or from
    its original text when the corrected text is empty; it is at most 103
    units long, and it is blank only for a note with both texts empty. *)
Theorem preview_spec (note : VoiceNote.t) :
  (VoiceNote.correctedText note <> [] ->
   HistoryView.preview note = HistoryView.truncateText (VoiceNote.correctedText note) 100)
  /\ (VoiceNote.correctedText note = [] ->
      HistoryView.preview note = HistoryView.truncateText (VoiceNote.originalText note) 100)
  /\ (length (HistoryView.preview note) <= 103)%nat
  /\ (HistoryView.preview note = [] <->
      VoiceNote.correctedText note = [] /\ VoiceNote.originalText note = []).
Proof.
  unfold HistoryView.preview, HistoryView.or_else.
  assert (Hblank : forall t, HistoryView.truncateText t 100 = [] <-> t = []).
  { intros t. unfold HistoryView.truncateText.
    destruct (Nat.leb_spec (length t) 100) as [Hle | Hlt]; [reflexivity |].
    split.
    - intros H. apply (f_equal length) in H.
      rewrite length_app, ellipsis_length in H. simpl in H. lia.
    - intros ->. simpl in Hlt. lia. }
  split; [| split; [| split]].
  - intros H. apply truthy_nonempty in H. rewrite H. reflexivity.
  - intros ->. reflexivity.
  - match goal with |- (length (HistoryView.truncateText ?t _) <= _)%nat =>
      unfold HistoryView.truncateText;
      destruct (Nat.leb_spec (length t) 100) as [Hle | Hlt];
      [lia | rewrite length_app, length_take, ellipsis_length; lia]
    end.
  - destruct (VoiceNote.correctedText note) as [|c k] eqn:Hk; simpl.
    + rewrite Hblank. split; [auto | tauto].
    + rewrite Hblank. split; [discriminate | intros [H _]; discriminate H].
Qed.

Lemma preview_spec_witness :
  HistoryView.preview Sample.note
  = HistoryView.truncateText (VoiceNote.correctedText Sample.note) 100.
Proof.
  refine (proj1 (preview_spec Sample.note) _). discriminate.
Defined.

(** ** Deleting from the mirrors *)

Lemma filter_all {A} (P : A -> Prop) `{!forall x, Decision (P x)} (l : list A) :
  Forall P l -> filter P l = l.
Proof.
  induction 1 as [|x l Hx _ IH]; [reflexivity |].
  rewrite filter_cons_True by exact Hx. rewrite IH. reflexivity.
Qed.

Lemma StronglySorted_filter {A} (R : relation A) (P : A -> Prop)
    `{!forall x, Decision (P x)} (l : list A) :
  StronglySorted R l -> StronglySorted R (filter P l).
Proof.
  induction 1 as [|x l Hl IH Hx]; [constructor |].
  rewrite filter_cons. destruct (decide (P x)); [| exact IH].
  constructor; [exact IH |].
  apply Forall_forall. intros y Hy. apply list_elem_of_filter in Hy as [_ Hy].
  rewrite Forall_forall in Hx. auto.
Qed.

Lemma no_id_all_differ {A} (f : A -> Js.str) (id : Js.str) (l : list A) :
  id ∉ f <$> l -> Forall (fun x => f x ≠ id) l.
Proof.
  intros H. apply Forall_forall. intros x Hx Heq. apply H.
  rewrite <- Heq. apply list_elem_of_fmap_2. exact Hx.
Qed.

(** X3.  [deleteNote] never throws to its caller.  When the store deletes,
    the list keeps exactly the notes with another id, in their order; when it
    rejects, the list is untouched and the error is logged.  Deleting an id
    that no listed note has leaves the list as it is, and so does deleting the
    same id a second time. *)
Theorem deleteNote_spec (c : Collab.t) (id : Js.str) (w : World.t) :
  let prev := AppState.notes (World.app w) in
  let w' := exec (App.deleteNote c id) w in
  let notes' := AppState.notes (World.app w') in
  result (App.deleteNote c id) w = Normal tt
  /\ (Collab.notes_delete c = Resolved tt ->
      (forall n, n ∈ notes' <-> n ∈ prev /\ VoiceNote.id n <> id)
      /\ notes' `sublist_of` prev
      /\ AppState.notes (World.app (exec (App.deleteNote c id) w')) = notes')
  /\ (id ∉ VoiceNote.id <$> prev -> notes' = prev)
  /\ (forall e, Collab.notes_delete c = Rejected e ->
      notes' = prev
      /\ World.trace w'
         = World.trace w ++ [NotesDelete id; ConsoleError (Js.lit "Error deleting note:") e])
  /\ World.recorder w' = World.recorder w
  /\ World.history w' = World.history w.
Proof.
  unfold App.deleteNote. run_handler.
  destruct (Collab.notes_delete c) as [[]|e]; simpl.
  - split; [reflexivity |]. split; [| split; [| split; [discriminate | auto]]].
    + intros _. split; [| split].
      * intros n. rewrite list_elem_of_filter. tauto.
      * apply sublist_filter.
      * apply filter_all. apply Forall_forall. intros n Hn.
        apply list_elem_of_filter in Hn. tauto.
    + intros H. apply filter_all, no_id_all_differ, H.
  - split; [reflexivity |]. split; [discriminate |]. split; [reflexivity |].
    split; [| auto]. intros e' [= <-]. split; [reflexivity |].
    rewrite <- app_assoc. reflexivity.
Qed.

Lemma deleteNote_spec_witness :
  AppState.notes (World.app (exec (App.deleteNote Sample.ok (Js.lit "n7")) Sample.browsing))
  = AppState.notes (World.app Sample.browsing).
Proof.
  refine (proj1 (proj2 (proj2 (deleteNote_spec Sample.ok (Js.lit "n7") Sample.browsing))) _).
  vm_compute. intros H. repeat (apply elem_of_cons in H as [H | H]; [discriminate H |]).
  apply elem_of_nil in H. exact H.
Defined.

(** X4.  [deleteDictionaryEntry] never throws.  When the store deletes, the
    dictionary keeps exactly the entries with another id, in their order, so
    a dictionary sorted by word stays sorted; when the store rejects, or no
    entry has the id, the dictionary is as it was. *)
Theorem deleteDictionaryEntry_spec (localeCompare : Js.str -> Js.str -> Z)
    (c : Collab.t) (id : Js.str) (w : World.t) :
  let prev := AppState.dictionary (World.app w) in
  let w' := exec (App.deleteDictionaryEntry c id) w in
  let dictionary' := AppState.dictionary (World.app w') in
  result (App.deleteDictionaryEntry c id) w = Normal tt
  /\ (Collab.entries_delete c = Resolved tt ->
      forall entry, entry ∈ dictionary' <-> entry ∈ prev /\ DictionaryEntry.id entry <> id)
  /\ dictionary' `sublist_of` prev
  /\ (sorted_by_word localeCompare prev -> sorted_by_word localeCompare dictionary')
  /\ (id ∉ DictionaryEntry.id <$> prev -> dictionary' = prev)
  /\ (forall e, Collab.entries_delete c = Rejected e -> dictionary' = prev)
  /\ AppState.notes (World.app w') = AppState.notes (World.app w).
Proof.
  unfold App.deleteDictionaryEntry, sorted_by_word. run_handler.
  destruct (Collab.entries_delete c) as [[]|e]; simpl.
  - split; [reflexivity |]. split; [| split; [| split; [| split; [| split]]]].
    + intros _ entry. rewrite list_elem_of_filter. tauto.
    + apply sublist_filter.
    + apply StronglySorted_filter.
    + intros H. apply filter_all, no_id_all_differ, H.
    + discriminate.
    + reflexivity.
  - repeat split; auto; discriminate.
Qed.

Lemma deleteDictionaryEntry_spec_witness :
  sorted_by_word Sample.compare_units
    (AppState.dictionary
       (World.app (exec (App.deleteDictionaryEntry Sample.ok (Js.lit "d0")) Sample.listed))).
Proof.
  refine (proj1 (proj2 (proj2 (proj2
            (deleteDictionaryEntry_spec Sample.compare_units Sample.ok (Js.lit "d0")
               Sample.listed)))) _).
  repeat constructor.
Defined.

(** X5.  [handleDeleteEntry] over [deleteDictionaryEntry] always announces
    "Entry deleted", also when the store rejected the delete and the entry is
    still listed: the rejection is caught one level down, so the handler's
    own error toast never appears. *)
Theorem handleDeleteEntry_spec (c : Collab.t) (id : Js.str) (w : World.t) :
  let w' := exec (Dictionary.handleDeleteEntry (App.deleteDictionaryEntry c) id) w in
  result (Dictionary.handleDeleteEntry (App.deleteDictionaryEntry c) id) w = Normal tt
  /\ World.trace w'
     = World.trace w
       ++ EntriesDelete id
       :: match Collab.entries_delete c with
          | Resolved _ => []
          | Rejected e => [ConsoleError (Js.lit "Error deleting dictionary entry:") e]
          end
       ++ [ToastSuccess (Js.lit "Entry deleted")]
  /\ AppState.dictionary (World.app w')
     = match Collab.entries_delete c with
       | Resolved _ =>
           filter (fun entry => DictionaryEntry.id entry ≠ id)
                  (AppState.dictionary (World.app w))
       | Rejected _ => AppState.dictionary (World.app w)
       end
  /\ World.dict w' = World.dict w.
Proof.
  unfold Dictionary.handleDeleteEntry, App.deleteDictionaryEntry. run_handler.
  destruct (Collab.entries_delete c) as [[]|e]; simpl;
    repeat split; rewrite <- ?app_assoc; reflexivity.
Qed.

(** ** Saving while signed out *)

(** X6.  With nobody signed in ([user] still [null]) a save of two non-empty
    texts sends nothing to the Note Store: reading [user.id] throws inside
    [addNote], which logs it.  The handler still announces "Note saved!" and
    clears both fields; the note list is unchanged. *)
Theorem saveNote_signed_out (c : Collab.t) (w : World.t) :
  AppState.user (World.app w) = None ->
  RecorderState.originalText (World.recorder w) <> [] ->
  RecorderState.correctedText (World.recorder w) <> [] ->
  let w' := exec (VoiceRecorder.saveNote (App.addNote c)) w in
  World.trace w'
  = World.trace w
    ++ [ConsoleError (Js.lit "Error adding note:") (Js.lit "TypeError");
        ToastSuccess (Js.lit "Note saved!")]
  /\ RecorderState.originalText (World.recorder w') = []
  /\ RecorderState.correctedText (World.recorder w') = []
  /\ World.app w' = World.app w.
Proof.
  intros Hu Ho Hk. apply truthy_nonempty in Ho, Hk.
  unfold VoiceRecorder.saveNote, App.addNote, App.user_id. run_handler.
  rewrite Ho, Hk. simpl. rewrite Hu. simpl.
  repeat split. rewrite <- app_assoc. reflexivity.
Qed.

Lemma saveNote_signed_out_witness :
  World.app
    (exec (VoiceRecorder.saveNote (App.addNote Sample.ok))
          (exec (Startup.setUser None) Sample.ready))
  = World.app (exec (Startup.setUser None) Sample.ready).
Proof.
  refine (proj2 (proj2 (proj2
            (saveNote_signed_out Sample.ok (exec (Startup.setUser None) Sample.ready)
               _ _ _))));
    [reflexivity | discriminate | discriminate].
Defined.

(** ** Save, then delete *)

(** X7.  A note saved and then deleted by the id the store gave it leaves
    the note list as it was before the save, provided no older note carries
    that id. *)
Theorem save_then_delete (c1 c2 : Collab.t) (w : World.t) (u : User.t)
    (newNote : VoiceNote.t) :
  AppState.user (World.app w) = Some u ->
  Collab.notes_create c1 = Resolved newNote ->
  Collab.notes_delete c2 = Resolved tt ->
  RecorderState.originalText (World.recorder w) <> [] ->
  RecorderState.correctedText (World.recorder w) <> [] ->
  VoiceNote.id newNote ∉ VoiceNote.id <$> AppState.notes (World.app w) ->
  let w1 := exec (VoiceRecorder.saveNote (App.addNote c1)) w in
  let w2 := exec (History.handleDeleteNote (App.deleteNote c2) (VoiceNote.id newNote)) w1 in
  AppState.notes (World.app w1) = newNote :: AppState.notes (World.app w)
  /\ AppState.notes (World.app w2) = AppState.notes (World.app w).
Proof.
  intros Hu Hc Hd Ho Hk Hfresh. apply truthy_nonempty in Ho, Hk.
  unfold VoiceRecorder.saveNote, App.addNote, App.user_id,
    History.handleDeleteNote, App.deleteNote.
  run_handler. rewrite Ho, Hk. simpl. rewrite Hu. simpl. rewrite Hc. simpl.
  split; [reflexivity |]. rewrite Hd. simpl.
  destruct (History.selected_is _ _); simpl;
    (rewrite filter_cons_False by (intros H; apply H; reflexivity));
    apply filter_all, no_id_all_differ, Hfresh.
Qed.

Lemma save_then_delete_witness :
  AppState.notes
    (World.app
       (exec (History.handleDeleteNote (App.deleteNote Sample.ok)
                (VoiceNote.id Sample.note))
             (exec (VoiceRecorder.saveNote (App.addNote Sample.ok)) Sample.ready)))
  = AppState.notes (World.app Sample.ready).
Proof.
  refine (proj2 (save_then_delete Sample.ok Sample.ok Sample.ready Sample.user Sample.note
                   _ _ _ _ _ _));
    [reflexivity | reflexivity | reflexivity | discriminate | discriminate |].
  vm_compute. intros H. apply elem_of_nil in H. exact H.
Defined.

(** ** Where a new entry lands *)

Section SortPosition.
Context {A : Type}.
Variable cmp : A -> A -> Z.
Hypothesis cmp_trans : forall a b c, (cmp a b <= 0 -> cmp b c <= 0 -> cmp a c <= 0)%Z.

Lemma sort_insert_front (a : A) (l : list A) :
  Forall (cmp_le cmp a) l -> sort_insert cmp a l = a :: l.
Proof.
  destruct l as [|b l]; simpl; [reflexivity |].
  intros H. apply Forall_inv in H. unfold cmp_le in H.
  destruct (Z.leb_spec (cmp a b) 0); [reflexivity | lia].
Qed.

(** Sorting a sorted list with one more element at its end puts that element
    after everything that may stand before it and leaves the rest in place. *)
Lemma sort_snoc_sorted (x : A) (l : list A) :
  StronglySorted (cmp_le cmp) l ->
  exists l1 l2,
    l = l1 ++ l2
    /\ sort cmp (l ++ [x]) = l1 ++ x :: l2
    /\ Forall (fun a => (cmp a x <= 0)%Z) l1
    /\ Forall (fun a => (0 < cmp a x)%Z) l2.
Proof using cmp_trans.
  induction 1 as [|a l Hl IH Ha].
  - exists [], []. repeat split; constructor.
  - destruct IH as (l1 & l2 & -> & Hs & H1 & H2).
    simpl. rewrite Hs. destruct l1 as [|b l1]; simpl.
    + destruct (Z.leb_spec (cmp a x) 0) as [Hax | Hax].
      * exists [a], l2. repeat split; auto.
      * exists [], (a :: l2). simpl. rewrite (sort_insert_front a l2 Ha).
        repeat split; auto.
    + assert (Hab : (cmp a b <= 0)%Z) by (apply Forall_inv in Ha; exact Ha).
      destruct (Z.leb_spec (cmp a b) 0); [| lia].
      exists (a :: b :: l1), l2. repeat split; auto.
      constructor; [| exact H1].
      apply Forall_inv in H1. exact (cmp_trans _ _ _ Hab H1).
Qed.
End SortPosition.

Section DictionaryOrder.
Variable toLowerCase : Js.str -> Js.str.
Variable localeCompare : Js.str -> Js.str -> Z.
Hypothesis localeCompare_total :
  forall a b, (localeCompare a b <= 0 \/ localeCompare b a <= 0)%Z.
Hypothesis localeCompare_trans :
  forall a b c, (localeCompare a b <= 0 -> localeCompare b c <= 0 ->
                 localeCompare a c <= 0)%Z.

Lemma by_word_trans (a b c : DictionaryEntry.t) :
  (App.by_word localeCompare a b <= 0 -> App.by_word localeCompare b c <= 0 ->
   App.by_word localeCompare a c <= 0)%Z.
Proof using localeCompare_trans. unfold App.by_word. apply localeCompare_trans. Qed.

(** X8.  A successful add to a dictionary that is sorted by word leaves the
    entries that were there in their places and puts the returned entry
    between them: after every entry whose word compares lower or equal
    (duplicates of a word included) and before every entry whose word
    compares higher. *)
Theorem addDictionaryEntry_position (c : Collab.t) (word correctSpelling : Js.str)
    (w : World.t) (u : User.t) (newEntry : DictionaryEntry.t) :
  AppState.user (World.app w) = Some u ->
  Collab.entries_create c = Resolved newEntry ->
  sorted_by_word localeCompare (AppState.dictionary (World.app w)) ->
  let w' := exec (App.addDictionaryEntry toLowerCase localeCompare c word correctSpelling) w in
  exists before after,
    AppState.dictionary (World.app w) = before ++ after
    /\ AppState.dictionary (World.app w') = before ++ newEntry :: after
    /\ Forall (fun entry =>
                 (localeCompare (DictionaryEntry.word entry)
                                (DictionaryEntry.word newEntry) <= 0)%Z) before
    /\ Forall (fun entry =>
                 (0 < localeCompare (DictionaryEntry.word entry)
                                    (DictionaryEntry.word newEntry))%Z) after.
Proof using localeCompare_trans.
  intros Hu Hc Hs.
  destruct (sort_snoc_sorted (App.by_word localeCompare) by_word_trans newEntry _ Hs)
    as (before & after & E & Esort & Hb & Ha).
  exists before, after.
  unfold App.addDictionaryEntry, App.user_id. run_handler.
  rewrite Hu. simpl. rewrite Hc. simpl. auto.
Qed.

(** X9.  Adding an entry to a sorted dictionary and then deleting it by the
    id the store gave it restores the dictionary, provided no other entry
    carries that id. *)
Theorem add_then_delete (c1 c2 : Collab.t) (word correctSpelling : Js.str)
    (w : World.t) (u : User.t) (newEntry : DictionaryEntry.t) :
  AppState.user (World.app w) = Some u ->
  Collab.entries_create c1 = Resolved newEntry ->
  Collab.entries_delete c2 = Resolved tt ->
  sorted_by_word localeCompare (AppState.dictionary (World.app w)) ->
  DictionaryEntry.id newEntry ∉ DictionaryEntry.id <$> AppState.dictionary (World.app w) ->
  let w1 := exec (App.addDictionaryEntry toLowerCase localeCompare c1 word correctSpelling) w in
  let w2 := exec (App.deleteDictionaryEntry c2 (DictionaryEntry.id newEntry)) w1 in
  AppState.dictionary (World.app w2) = AppState.dictionary (World.app w).
Proof using localeCompare_trans.
  intros Hu Hc Hd Hs Hfresh.
  destruct (sort_snoc_sorted (App.by_word localeCompare) by_word_trans newEntry _ Hs)
    as (before & after & E & Esort & _ & _).
  apply no_id_all_differ in Hfresh.
  unfold App.addDictionaryEntry, App.deleteDictionaryEntry, App.user_id. run_handler.
  rewrite Hu. simpl. rewrite Hc. simpl. rewrite Hd. simpl.
  rewrite Esort, filter_app.
  rewrite filter_cons_False by (intros H; apply H; reflexivity).
  rewrite <- filter_app, <- E. apply filter_all, Hfresh.
Qed.

End DictionaryOrder.

Lemma addDictionaryEntry_position_witness :
  exists before after,
    AppState.dictionary (World.app Sample.listed) = before ++ after
    /\ AppState.dictionary
         (World.app
            (exec (App.addDictionaryEntry Sample.ascii_lower Sample.compare_units
                     Sample.ok (Js.lit "Nukular") (Js.lit "nuclear")) Sample.listed))
       = before ++ Sample.entry :: after
    /\ Forall (fun entry =>
                 (Sample.compare_units (DictionaryEntry.word entry)
                                       (DictionaryEntry.word Sample.entry) <= 0)%Z) before
    /\ Forall (fun entry =>
                 (0 < Sample.compare_units (DictionaryEntry.word entry)
                                           (DictionaryEntry.word Sample.entry))%Z) after.
Proof.
  refine (addDictionaryEntry_position Sample.ascii_lower Sample.compare_units
            compare_units_trans Sample.ok (Js.lit "Nukular") (Js.lit "nuclear")
            Sample.listed Sample.user Sample.entry _ _ _);
    [reflexivity | reflexivity | repeat constructor].
Defined.

Lemma add_then_delete_witness :
  AppState.dictionary
    (World.app
       (exec (App.deleteDictionaryEntry Sample.ok (DictionaryEntry.id Sample.entry))
          (exec (App.addDictionaryEntry Sample.ascii_lower Sample.compare_units
                   Sample.ok (Js.lit "Nukular") (Js.lit "nuclear")) Sample.listed)))
  = AppState.dictionary (World.app Sample.listed).
Proof.
  refine (add_then_delete Sample.ascii_lower Sample.compare_units
            compare_units_trans Sample.ok Sample.ok (Js.lit "Nukular") (Js.lit "nuclear")
            Sample.listed Sample.user Sample.entry _ _ _ _ _);
    [reflexivity | reflexivity | reflexivity | repeat constructor |].
  vm_compute. intros H. apply elem_of_cons in H as [H | H]; [discriminate H |].
  apply elem_of_nil in H. exact H.
Defined.

(** ** The Dictionary form *)

Lemma trimStart_blank (s : Js.str) :
  Js.trimStart s = [] <-> forallb Js.is_white_space s = true.
Proof.
  induction s as [|c s IH]; simpl; [tauto |].
  destruct (Js.is_white_space c); simpl; [exact IH |].
  split; discriminate.
Qed.

(** A string trims to nothing exactly when it is white space throughout. *)
Lemma trim_blank_iff (s : Js.str) :
  Js.trim s = [] <-> forallb Js.is_white_space s = true.
Proof.
  split.
  - intros H. destruct (trim_spec s) as [(pre & post & E & Hpre & Hpost) _].
    rewrite H in E. rewrite E. simpl. rewrite forallb_app, Hpre, Hpost. reflexivity.
  - intros H. unfold Js.trim. apply trimStart_blank in H. rewrite H. reflexivity.
Qed.

(** X10.  [handleAddEntry] over [addDictionaryEntry].  When either field is
    white space throughout, it only shows the validation toast: nothing is
    sent and the form keeps what was typed.  Otherwise it sends the trimmed
    fields on, and then clears both fields, announces "Dictionary entry
    added!" and re-enables the button, whether or not the store accepted the
    entry; its own failure toast never appears. *)
Theorem handleAddEntry_spec (toLowerCase : Js.str -> Js.str)
    (localeCompare : Js.str -> Js.str -> Z) (c : Collab.t) (w : World.t) :
  let newWord := DictionaryState.newWord (World.dict w) in
  let correctSpelling := DictionaryState.correctSpelling (World.dict w) in
  let add := App.addDictionaryEntry toLowerCase localeCompare c in
  let w' := exec (Dictionary.handleAddEntry add) w in
  result (Dictionary.handleAddEntry add) w = Normal tt
  /\ (forallb Js.is_white_space newWord = true
      \/ forallb Js.is_white_space correctSpelling = true ->
      w' = with_trace
             (fun t => t ++ [ToastError (Js.lit "Please enter both word and correct spelling")])
             w)
  /\ (forallb Js.is_white_space newWord = false ->
      forallb Js.is_white_space correctSpelling = false ->
      World.dict w' = DictionaryState.mk [] [] false
      /\ World.app w'
         = World.app (exec (add (Js.trim newWord) (Js.trim correctSpelling)) w)
      /\ World.trace w'
         = World.trace (exec (add (Js.trim newWord) (Js.trim correctSpelling)) w)
           ++ [ToastSuccess (Js.lit "Dictionary entry added!")]).
Proof.
  unfold Dictionary.handleAddEntry, App.addDictionaryEntry, App.user_id. run_handler.
  destruct (Js.truthy (Js.trim (DictionaryState.newWord (World.dict w)))) eqn:Hw;
    destruct (Js.truthy (Js.trim (DictionaryState.correctSpelling (World.dict w)))) eqn:Hs;
    simpl.
  - split; [| split].
    + destruct (AppState.user (World.app w)); simpl; [| reflexivity].
      destruct (Collab.entries_create c); reflexivity.
    + apply truthy_nonempty in Hw, Hs. rewrite trim_blank_iff in Hw, Hs.
      intros [H | H]; congruence.
    + intros _ _.
      destruct (AppState.user (World.app w)); simpl; [| auto].
      destruct (Collab.entries_create c); simpl; auto.
  - apply falsy_empty, trim_blank_iff in Hs.
    split; [reflexivity |]. split; [reflexivity | congruence].
  - apply falsy_empty, trim_blank_iff in Hw.
    split; [reflexivity |]. split; [reflexivity | congruence].
  - apply falsy_empty, trim_blank_iff in Hw.
    split; [reflexivity |]. split; [reflexivity | congruence].
Qed.

Lemma handleAddEntry_spec_witness :
  World.dict
    (exec (Dictionary.handleAddEntry
             (App.addDictionaryEntry Sample.ascii_lower Sample.compare_units Sample.store_down))
          Sample.typed)
  = DictionaryState.mk [] [] false.
Proof.
  refine (proj1 (proj2 (proj2
            (handleAddEntry_spec Sample.ascii_lower Sample.compare_units Sample.store_down
               Sample.typed)) _ _)); reflexivity.
Defined.

(** ** Start-up *)

(** X11.  [initializeApp] never throws and always ends with [isLoading]
    off.  When the sign-in lookup rejects, nothing is loaded: user, notes and
    dictionary stay as they were.  When it resolves, the user is set, and the
    notes and the dictionary are each replaced by what the store lists for
    that user's id (the 50 newest notes; entries by word), independently: a
    list that fails to load is logged and leaves its mirror as it was without
    stopping the other. *)
Theorem initializeApp_spec (b : Backend.t) (w : World.t) :
  let w' := exec (Startup.initializeApp b) w in
  result (Startup.initializeApp b) w = Normal tt
  /\ AppState.isLoading (World.app w') = false
  /\ match Backend.me b with
     | Rejected e =>
         AppState.user (World.app w') = AppState.user (World.app w)
         /\ AppState.notes (World.app w') = AppState.notes (World.app w)
         /\ AppState.dictionary (World.app w') = AppState.dictionary (World.app w)
         /\ World.trace w'
            = World.trace w ++ [ConsoleError (Js.lit "Error initializing app:") e]
     | Resolved u =>
         AppState.user (World.app w') = Some u
         /\ AppState.notes (World.app w')
            = match Backend.notes_list b (NotesQuery.mk (User.id u) true 50) with
              | Resolved userNotes => userNotes
              | Rejected _ => AppState.notes (World.app w)
              end
         /\ AppState.dictionary (World.app w')
            = match Backend.entries_list b (EntriesQuery.mk (User.id u) true) with
              | Resolved userDictionary => userDictionary
              | Rejected _ => AppState.dictionary (World.app w)
              end
         /\ World.trace w'
            = World.trace w
              ++ match Backend.notes_list b (NotesQuery.mk (User.id u) true 50) with
                 | Resolved _ => []
                 | Rejected e => [ConsoleError (Js.lit "Error loading notes:") e]
                 end
              ++ match Backend.entries_list b (EntriesQuery.mk (User.id u) true) with
                 | Resolved _ => []
                 | Rejected e => [ConsoleError (Js.lit "Error loading dictionary:") e]
                 end
     end
  /\ World.recorder w' = World.recorder w
  /\ World.history w' = World.history w
  /\ World.media w' = World.media w.
Proof.
  unfold Startup.initializeApp, Startup.loadNotes, Startup.loadDictionary,
    Startup.setUser, Startup.setIsLoading.
  run_handler.
  destruct (Backend.me b) as [u|e]; simpl.
  - destruct (Backend.notes_list b _) as [ns|e1]; simpl;
      destruct (Backend.entries_list b _) as [ds|e2]; simpl;
      repeat split; rewrite ?app_nil_r, <- ?app_assoc; reflexivity.
  - repeat split.
Qed.

(** ** Recording *)

(** X12.  When the microphone is refused, [startRecording] changes nothing
    but the trace: one request, the error logged, the failure toast.  No
    stream is acquired, no recorder is created, and the tab stays idle. *)
Theorem startRecording_refused (c : Collab.t) (w : World.t) (e : Js.str) :
  Collab.getUserMedia c = Rejected e ->
  VoiceRecorder.startRecording c w
  = (Normal tt,
     with_trace (fun t => t ++ [GetUserMedia;
                                ConsoleError (Js.lit "Error starting recording:") e;
                                ToastError (Js.lit "Failed to start recording")]) w).
Proof.
  intros H.
  unfold VoiceRecorder.startRecording, acquire_stream, recorder_start.
  run_handler. rewrite H. simpl. rewrite <- !app_assoc. reflexivity.
Qed.

Lemma startRecording_refused_witness :
  VoiceRecorder.startRecording
    (Collab.mk (Rejected (Js.lit "NotAllowedError")) [] (Rejected []) (Rejected [])
               (Rejected []) (Rejected []) (Rejected []) (Rejected []) (Rejected []) [])
    Sample.world
  = (Normal tt,
     with_trace (fun t => t ++ [GetUserMedia;
                                ConsoleError (Js.lit "Error starting recording:")
                                             (Js.lit "NotAllowedError");
                                ToastError (Js.lit "Failed to start recording")])
                Sample.world).
Proof.
  refine (startRecording_refused _ Sample.world (Js.lit "NotAllowedError") _).
  reflexivity.
Defined.

(** The state after a click that stops a recording. *)
Lemma click_stop_state (c : Collab.t) (w : World.t) :
  settled w ->
  RecorderState.isRecording (World.recorder w) = true ->
  let r := World.recorder w in
  let w' := exec (RecordTab.dispatch c RecordTab.ClickRecord) w in
  let r' := World.recorder w' in
  World.media w' = Media.mk (Media.granted (World.media w)) [] []
  /\ RecorderState.isRecording r' = false
  /\ RecorderState.isTranscribing r' = false
  /\ RecorderState.isProcessing r' = false
  /\ RecorderState.audioChunks r' = RecorderState.audioChunks r ++ [Collab.recorded c]
  /\ RecorderState.audioBlob r'
     = Some (Blob.mk (RecorderState.audioChunks r ++ [Collab.recorded c])
                     (Js.lit "audio/wav"))
  /\ (RecorderState.originalText r', RecorderState.correctedText r')
     = match Collab.readAsDataURL c, Collab.transcribeAudio c, Collab.generateText c with
       | Resolved _, Resolved text, Resolved corrected => (text, Js.trim corrected)
       | Resolved _, Resolved text, Rejected _ => (text, text)
       | _, _, _ => (RecorderState.originalText r, RecorderState.correctedText r)
       end
  /\ World.app w' = World.app w.
Proof.
  intros (Ht & Hp & Hrec) Hr. rewrite Hr in Hrec.
  destruct Hrec as (rec & Hm & Hc & Hl).
  unfold RecordTab.dispatch, RecordTab.recordButton_onClick,
    VoiceRecorder.stopRecording, VoiceRecorder.ondataavailable,
    VoiceRecorder.onstop, VoiceRecorder.transcribeAudio, VoiceRecorder.correctText,
    recorder_stop, stop_tracks.
  run_handler. rewrite Ht, Hp. simpl. rewrite Hr. simpl. rewrite Hm, Hr. simpl.
  rewrite Hc. rewrite bool_decide_eq_true_2 by apply list_elem_of_here. simpl.
  rewrite Hc, Hl, ?Hm.
  rewrite !filter_cons_False, !filter_nil by (intros H; apply H; reflexivity).
  destruct (Collab.readAsDataURL c); simpl; [| rewrite ?Hp; repeat split].
  destruct (Collab.transcribeAudio c); simpl; [| rewrite ?Hp; repeat split].
  destruct (Collab.generateText c); simpl; repeat split.
Qed.


(** X13.  A click on the round button in a settled, recording state stops
    the recorder and releases the stream whatever the collaborators answer
    afterwards.  The recorded data is appended to the chunks and kept as the
    audio blob, tagged audio/wav.  The texts end up as follows: transcript
    and trimmed correction when both calls resolve; the transcript in both
    fields when only the correction rejects; unchanged when the audio cannot
    be read or the transcription rejects.  Nothing is left in flight. *)
Theorem stop_click_outcome (c : Collab.t) (w : World.t) :
  settled w ->
  RecorderState.isRecording (World.recorder w) = true ->
  let r := World.recorder w in
  let w' := exec (RecordTab.dispatch c RecordTab.ClickRecord) w in
  let r' := World.recorder w' in
  World.media w' = Media.mk (Media.granted (World.media w)) [] []
  /\ RecorderState.isRecording r' = false
  /\ RecorderState.isTranscribing r' = false
  /\ RecorderState.isProcessing r' = false
  /\ RecorderState.audioChunks r' = RecorderState.audioChunks r ++ [Collab.recorded c]
  /\ RecorderState.audioBlob r'
     = Some (Blob.mk (RecorderState.audioChunks r ++ [Collab.recorded c])
                     (Js.lit "audio/wav"))
  /\ (RecorderState.originalText r', RecorderState.correctedText r')
     = match Collab.readAsDataURL c, Collab.transcribeAudio c, Collab.generateText c with
       | Resolved _, Resolved text, Resolved corrected => (text, Js.trim corrected)
       | Resolved _, Resolved text, Rejected _ => (text, text)
       | _, _, _ => (RecorderState.originalText r, RecorderState.correctedText r)
       end
  /\ World.app w' = World.app w.
Proof. exact (click_stop_state c w). Qed.

Lemma stop_click_outcome_witness :
  World.media
    (exec (RecordTab.dispatch Sample.correction_down RecordTab.ClickRecord)
          (exec (VoiceRecorder.startRecording Sample.ok) Sample.world))
  = Media.mk (Media.granted
                (World.media (exec (VoiceRecorder.startRecording Sample.ok) Sample.world)))
             [] [].
Proof.
  refine (proj1 (stop_click_outcome Sample.correction_down
                   (exec (VoiceRecorder.startRecording Sample.ok) Sample.world) _ _)).
  - vm_compute. split; [reflexivity |]. split; [reflexivity |].
    eexists. split; [reflexivity |]. split; reflexivity.
  - reflexivity.
Defined.

(** ** The correction request *)

Lemma join_infix (sep : Js.str) (parts : list Js.str) (p : Js.str) :
  In p parts -> exists a b, Js.join sep parts = a ++ p ++ b.
Proof.
  induction parts as [|q parts IH]; [intros [] |].
  intros [-> | Hin].
  - destruct parts as [|q' parts'].
    + exists [], []. simpl. rewrite app_nil_r. reflexivity.
    + exists [], (sep ++ Js.join sep (q' :: parts')). reflexivity.
  - destruct (IH Hin) as (a & b & E).
    destruct parts as [|q' parts']; [destruct Hin |].
    exists (q ++ sep ++ a), b.
    change (Js.join sep (q :: q' :: parts')) with (q ++ sep ++ Js.join sep (q' :: parts')).
    rewrite E, <- !app_assoc. reflexivity.
Qed.

Lemma dictionaryContext_infix (dictionary : list DictionaryEntry.t)
    (entry : DictionaryEntry.t) :
  In entry dictionary ->
  exists a b, VoiceRecorder.dictionaryContext dictionary = a ++ hint_line entry ++ b.
Proof.
  intros Hin.
  assert (Hlen : (0 <? length dictionary)%nat = true)
    by (destruct dictionary; [destruct Hin | reflexivity]).
  assert (E0 : VoiceRecorder.dictionaryContext dictionary
               = Js.newline ++ Js.newline
                 ++ Js.lit "Custom Dictionary (use these correct spellings):"
                 ++ Js.newline ++ Js.join Js.newline (hint_line <$> dictionary)).
  { unfold VoiceRecorder.dictionaryContext. rewrite Hlen. reflexivity. }
  destruct (join_infix Js.newline (hint_line <$> dictionary) (hint_line entry))
    as (a & b & E).
  { apply in_map, Hin. }
  rewrite E0, E.
  generalize (Js.lit "Custom Dictionary (use these correct spellings):"), Js.newline.
  intros C N.
  exists (N ++ N ++ C ++ N ++ a), b. rewrite <- !app_assoc. reflexivity.
Qed.

(** X14.  The correction request carries the text between quotes, as it is
    (nothing in it is escaped), and one spelling line for every dictionary
    entry. *)
Theorem prompt_carries_hints (dictionary : list DictionaryEntry.t) (text : Js.str) :
  (exists a b,
     VoiceRecorder.prompt dictionary text
     = a ++ (Js.lit "Original text: " ++ Js.quote ++ text ++ Js.quote) ++ b)
  /\ (forall entry, In entry dictionary ->
      exists a b, VoiceRecorder.prompt dictionary text = a ++ hint_line entry ++ b).
Proof.
  unfold VoiceRecorder.prompt. split.
  - generalize (VoiceRecorder.dictionaryContext dictionary).
    generalize (Js.lit "Original text: ").
    generalize (Js.lit "Return only the corrected text without any explanations or formatting.").
    generalize (Js.lit "Please correct the grammar, punctuation, and spelling in this transcribed text. Make it well-formatted and professional while preserving the original meaning and tone. Apply proper capitalization and sentence structure.").
    generalize Js.quote, Js.newline. intros N Q H R O ctx.
    exists (H ++ ctx ++ Q ++ Q), (Q ++ Q ++ R). rewrite <- !app_assoc. reflexivity.
  - intros entry Hin.
    destruct (dictionaryContext_infix dictionary entry Hin) as (a & b & E).
    rewrite E.
    match goal with |- exists _ _, ?H ++ _ ++ ?rest = _ =>
      generalize H, rest; intros h rest'
    end.
    exists (h ++ a), (b ++ rest'). rewrite <- !app_assoc. reflexivity.
Qed.

Lemma prompt_carries_hints_witness :
  exists a b,
    VoiceRecorder.prompt [Sample.zebra; Sample.entry] (Js.lit "the nukular plant")
    = a ++ hint_line Sample.entry ++ b.
Proof.
  refine (proj2 (prompt_carries_hints [Sample.zebra; Sample.entry]
                   (Js.lit "the nukular plant")) Sample.entry _).
  right. left. reflexivity.
Defined.

(** ** Properties kept by handlers *)

Section Keeps.
Variable P : World.t -> Prop.

Lemma keeps_ret {A} (a : A) : keeps P (ret a).
Proof. intros w Hw. exact Hw. Qed.

Lemma keeps_throw {A} (e : Js.str) : keeps P (throw (A := A) e).
Proof. intros w Hw. exact Hw. Qed.

Lemma keeps_get : keeps P get.
Proof. intros w Hw. exact Hw. Qed.

Lemma keeps_await {A} (p : outcome A) : keeps P (await p).
Proof. intros w Hw. destruct p; exact Hw. Qed.

Lemma keeps_bind {A B} (m : M A) (k : A -> M B) :
  keeps P m -> (forall a, keeps P (k a)) -> keeps P (bind m k).
Proof.
  intros Hm Hk w Hw. specialize (Hm w Hw). unfold exec, bind in *.
  destruct (m w) as [[a|e] w']; simpl in *; [apply (Hk a w' Hm) | exact Hm].
Qed.

Lemma keeps_try_catch {A} (body : M A) (handler : Js.str -> M A) :
  keeps P body -> (forall e, keeps P (handler e)) -> keeps P (try_catch body handler).
Proof.
  intros Hm Hk w Hw. specialize (Hm w Hw). unfold exec, try_catch in *.
  destruct (body w) as [[a|e] w']; simpl in *; [exact Hm | apply (Hk e w' Hm)].
Qed.

Lemma keeps_try_finally {A} (body : M A) (fin : M unit) :
  keeps P body -> keeps P fin -> keeps P (try_finally body fin).
Proof.
  intros Hm Hf w Hw. specialize (Hm w Hw). unfold exec, try_finally in *.
  destruct (body w) as [r w']; simpl in *. specialize (Hf w' Hm).
  unfold exec in Hf.
  destruct (fin w') as [[[]|e] w'']; simpl in *; exact Hf.
Qed.

Lemma keeps_modify (f : World.t -> World.t) :
  (forall w, P w -> P (f w)) -> keeps P (modify f).
Proof. intros Hf w Hw. apply Hf, Hw. Qed.
End Keeps.

Ltac unfold_setters :=
  unfold emit, toast_success, toast_error, console_error,
    setNotes, setDictionary, setIsRecording, setIsTranscribing, setIsProcessing,
    setOriginalText, setCorrectedText, setAudioBlob, set_mediaRecorder,
    set_audioChunks, setSelectedNote, setNewWord, setCorrectSpelling, setIsAdding,
    acquire_stream, recorder_start, recorder_stop, stop_tracks, App.user_id.

Ltac unfold_handlers :=
  unfold RecordTab.dispatch, RecordTab.recordButton_onClick,
    VoiceRecorder.startRecording, VoiceRecorder.stopRecording,
    VoiceRecorder.ondataavailable, VoiceRecorder.onstop,
    VoiceRecorder.transcribeAudio, VoiceRecorder.correctText,
    VoiceRecorder.saveNote, VoiceRecorder.reprocessText,
    DictionaryTab.dispatch, Dictionary.handleAddEntry, Dictionary.handleDeleteEntry,
    HistoryView.dispatch, History.handleDeleteNote,
    App.addNote, App.deleteNote, App.addDictionaryEntry, App.deleteDictionaryEntry.

(** Takes a handler apart down to its state updates; [leaf] closes those. *)
Ltac keeps_walk leaf :=
  repeat (cbv beta zeta;
    lazymatch goal with
    | |- keeps _ (ret _) => apply keeps_ret
    | |- keeps _ (throw _) => apply keeps_throw
    | |- keeps _ get => apply keeps_get
    | |- keeps _ (await _) => apply keeps_await
    | |- keeps _ (try_finally _ _) => apply keeps_try_finally
    | |- keeps _ (try_catch _ _) => apply keeps_try_catch; [| intros ?]
    | |- keeps _ (bind _ _) => apply keeps_bind; [| intros ?]
    | |- keeps _ (if ?b then _ else _) => destruct b
    | |- keeps _ (match ?x with _ => _ end) => destruct x
    | |- keeps _ (modify _) => apply keeps_modify; intros ? ?; simpl; solve [leaf]
    | |- keeps _ _ => progress (unfold_handlers; unfold_setters)
    end).

(** The Record tab keeps to itself, but for the notes it saves. *)
Lemma record_dispatch_frame (c : Collab.t) (e : RecordTab.event) (w0 : World.t) :
  keeps (record_frame w0) (RecordTab.dispatch c e).
Proof.
  unfold record_frame. destruct e;
    keeps_walk ltac:(first
      [ assumption
      | match goal with
        | H : _ /\ _ /\ _ /\ _ /\ (exists _, _) |- _ =>
            destruct H as (? & ? & ? & ? & added & Hn);
            repeat split; try assumption;
            match goal with |- exists _, ?n :: _ = _ => exists (n :: added) end;
            simpl; rewrite Hn; reflexivity
        end ]).
Qed.

(** The Dictionary tab touches only the dictionary and its own form. *)
Lemma dictionary_dispatch_frame (toLowerCase : Js.str -> Js.str)
    (localeCompare : Js.str -> Js.str -> Z) (c : Collab.t)
    (e : DictionaryTab.event) (w0 : World.t) :
  keeps (dictionary_frame w0) (DictionaryTab.dispatch toLowerCase localeCompare c e).
Proof.
  unfold dictionary_frame. destruct e;
    keeps_walk ltac:(assumption).
Qed.

(** The History tab touches only the note list, which it can only shorten,
    and its own selection. *)
Lemma history_dispatch_frame (c : Collab.t) (e : HistoryView.event) (w0 : World.t) :
  keeps (history_frame w0) (HistoryView.dispatch c e).
Proof.
  unfold history_frame. destruct e;
    keeps_walk ltac:(first
      [ assumption
      | match goal with
        | H : _ /\ _ /\ _ /\ _ /\ _ /\ _ |- _ =>
            destruct H as (? & ? & ? & ? & ? & Hs);
            repeat split; try assumption;
            etransitivity; [apply sublist_filter | exact Hs]
        end ]).
Qed.

Lemma record_frame_refl (w : World.t) : record_frame w w.
Proof. unfold record_frame. repeat split. exists []. reflexivity. Qed.

Lemma dictionary_frame_refl (w : World.t) : dictionary_frame w w.
Proof. unfold dictionary_frame. repeat split. Qed.

Lemma history_frame_refl (w : World.t) : history_frame w w.
Proof. unfold history_frame. repeat split. reflexivity. Qed.

(** X15.  The tabs keep apart.  No interaction with the Record tab changes
    the dictionary, the signed-in user, the Dictionary form or the History
    selection, and it only ever puts notes in front of the ones listed.  No
    interaction with the Dictionary tab changes the recorder, the
    microphone, the notes or the selection.  No interaction with the History
    tab changes the recorder, the microphone or the dictionary, and it never
    adds or reorders notes. *)
Theorem tabs_keep_apart (toLowerCase : Js.str -> Js.str)
    (localeCompare : Js.str -> Js.str -> Z) (c : Collab.t) (w : World.t) :
  (forall e, record_frame w (exec (RecordTab.dispatch c e) w))
  /\ (forall e, dictionary_frame w
                  (exec (DictionaryTab.dispatch toLowerCase localeCompare c e) w))
  /\ (forall e, history_frame w (exec (HistoryView.dispatch c e) w)).
Proof.
  split; [| split]; intros e.
  - apply record_dispatch_frame, record_frame_refl.
  - apply dictionary_dispatch_frame, dictionary_frame_refl.
  - apply history_dispatch_frame, history_frame_refl.
Qed.

(** ** Asking twice *)

(** The recorder state after a re-correction, read off the state before. *)
Lemma reprocessText_recorder (c : Collab.t) (w : World.t) :
  let r := World.recorder w in
  let w' := exec (VoiceRecorder.reprocessText c) w in
  World.app w' = World.app w
  /\ World.media w' = World.media w
  /\ World.recorder w'
     = if Js.truthy (RecorderState.originalText r) then
         RecorderState.mk (RecorderState.isRecording r) (RecorderState.isTranscribing r)
           false (RecorderState.originalText r)
           match Collab.generateText c with
           | Resolved corrected => Js.trim corrected
           | Rejected _ => RecorderState.originalText r
           end
           (RecorderState.audioBlob r) (RecorderState.mediaRecorder r)
           (RecorderState.audioChunks r)
       else r.
Proof.
  unfold VoiceRecorder.reprocessText, VoiceRecorder.correctText. run_handler.
  destruct (Js.truthy (RecorderState.originalText (World.recorder w))); simpl;
    [| repeat split].
  destruct (Collab.generateText c); simpl; repeat split.
Qed.

(** X17.  Re-correction does not accumulate: with the same answer from the
    provider, asking twice leaves the recorder state (both texts and the
    flags) exactly as asking once. *)
Theorem reprocessText_idempotent (c : Collab.t) (w : World.t) :
  RecorderState.isProcessing (World.recorder w) = false ->
  let w1 := exec (VoiceRecorder.reprocessText c) w in
  let w2 := exec (VoiceRecorder.reprocessText c) w1 in
  World.recorder w2 = World.recorder w1
  /\ World.app w2 = World.app w
  /\ World.media w2 = World.media w.
Proof.
  intros Hp. simpl.
  destruct (reprocessText_recorder c w) as (Ha1 & Hm1 & Hr1).
  destruct (reprocessText_recorder c (exec (VoiceRecorder.reprocessText c) w))
    as (Ha2 & Hm2 & Hr2).
  rewrite Ha2, Hm2, Ha1, Hm1. split; [| auto].
  rewrite Hr2, Hr1.
  destruct (Js.truthy (RecorderState.originalText (World.recorder w))) eqn:Ho; simpl;
    rewrite Ho; reflexivity.
Qed.

Lemma reprocessText_idempotent_witness :
  World.recorder
    (exec (VoiceRecorder.reprocessText Sample.ok)
          (exec (VoiceRecorder.reprocessText Sample.ok) Sample.ready))
  = World.recorder (exec (VoiceRecorder.reprocessText Sample.ok) Sample.ready).
Proof.
  refine (proj1 (reprocessText_idempotent Sample.ok Sample.ready _)). reflexivity.
Defined.

(** X18.  A note is not saved twice: once [saveNote] has gone past its
    validation (whatever the store then answered), both fields are empty, so
    saving again sends nothing and only shows "No text to save". *)
Theorem saveNote_twice (c1 c2 : Collab.t) (w : World.t) :
  RecorderState.originalText (World.recorder w) <> [] ->
  RecorderState.correctedText (World.recorder w) <> [] ->
  let w1 := exec (VoiceRecorder.saveNote (App.addNote c1)) w in
  VoiceRecorder.saveNote (App.addNote c2) w1
  = (Normal tt, with_trace (fun t => t ++ [ToastError (Js.lit "No text to save")]) w1).
Proof.
  intros Ho Hk. apply truthy_nonempty in Ho, Hk.
  unfold VoiceRecorder.saveNote, App.addNote, App.user_id. run_handler.
  rewrite Ho, Hk. simpl.
  destruct (AppState.user (World.app w)); simpl; [| reflexivity].
  destruct (Collab.notes_create c1); reflexivity.
Qed.

Lemma saveNote_twice_witness :
  VoiceRecorder.saveNote (App.addNote Sample.ok)
    (exec (VoiceRecorder.saveNote (App.addNote Sample.ok)) Sample.ready)
  = (Normal tt,
     with_trace (fun t => t ++ [ToastError (Js.lit "No text to save")])
       (exec (VoiceRecorder.saveNote (App.addNote Sample.ok)) Sample.ready)).
Proof.
  refine (saveNote_twice Sample.ok Sample.ok Sample.ready _ _); discriminate.
Defined.

(** ** Deleting a note, as reported *)

(** X19.  [handleDeleteNote] over [deleteNote] always announces "Note
    deleted", also when the store rejected the delete and the note is still
    listed; its own failure toast never appears. *)
Theorem handleDeleteNote_reports (c : Collab.t) (id : Js.str) (w : World.t) :
  let w' := exec (History.handleDeleteNote (App.deleteNote c) id) w in
  result (History.handleDeleteNote (App.deleteNote c) id) w = Normal tt
  /\ World.trace w'
     = World.trace w
       ++ NotesDelete id
       :: match Collab.notes_delete c with
          | Resolved _ => []
          | Rejected e => [ConsoleError (Js.lit "Error deleting note:") e]
          end
       ++ [ToastSuccess (Js.lit "Note deleted")].
Proof.
  unfold History.handleDeleteNote, App.deleteNote. run_handler.
  destruct (Collab.notes_delete c) as [[]|e]; simpl;
    destruct (History.selected_is _ _); simpl;
    repeat split; rewrite <- ?app_assoc; reflexivity.
Qed.

(** ** A whole recording *)

(** The state after [startRecording] was granted the microphone: the texts
    and the last blob stay, the chunk buffer is emptied, and the ref holds a
    recorder on the fresh stream. *)
Lemma startRecording_state (c : Collab.t) (w : World.t) :
  Collab.getUserMedia c = Resolved tt ->
  let r := World.recorder w in
  let m := World.media w in
  let w' := exec (VoiceRecorder.startRecording c) w in
  World.recorder w'
  = RecorderState.mk true (RecorderState.isTranscribing r) (RecorderState.isProcessing r)
      (RecorderState.originalText r) (RecorderState.correctedText r)
      (RecorderState.audioBlob r)
      (Some (Recorder.mk (Media.granted m) (AppState.dictionary (World.app w)))) []
  /\ World.media w'
     = Media.mk (S (Media.granted m)) (Media.granted m :: Media.live m)
                (Media.granted m :: Media.capturing m)
  /\ World.app w' = World.app w.
Proof.
  intros H.
  unfold VoiceRecorder.startRecording, acquire_stream, recorder_start.
  run_handler. rewrite H. simpl. repeat split.
Qed.

(** X20.  From a settled idle state, a click that is granted the microphone
    followed by a click that stops: the device was acquired once and is
    released, the audio blob holds the data of this recording only (the
    chunk buffer is emptied at the start), and the texts of an earlier
    recording stay on screen until a new transcript arrives. *)
Theorem record_cycle (c1 c2 : Collab.t) (w : World.t) :
  settled w ->
  RecorderState.isRecording (World.recorder w) = false ->
  Collab.getUserMedia c1 = Resolved tt ->
  let r := World.recorder w in
  let w1 := exec (RecordTab.dispatch c1 RecordTab.ClickRecord) w in
  let w2 := exec (RecordTab.dispatch c2 RecordTab.ClickRecord) w1 in
  let r2 := World.recorder w2 in
  (RecorderState.isRecording (World.recorder w1) = true
   /\ RecorderState.originalText (World.recorder w1) = RecorderState.originalText r
   /\ RecorderState.correctedText (World.recorder w1) = RecorderState.correctedText r)
  /\ World.media w2 = Media.mk (S (Media.granted (World.media w))) [] []
  /\ RecorderState.isRecording r2 = false
  /\ RecorderState.audioBlob r2
     = Some (Blob.mk [Collab.recorded c2] (Js.lit "audio/wav"))
  /\ (RecorderState.originalText r2, RecorderState.correctedText r2)
     = match Collab.readAsDataURL c2, Collab.transcribeAudio c2, Collab.generateText c2 with
       | Resolved _, Resolved text, Resolved corrected => (text, Js.trim corrected)
       | Resolved _, Resolved text, Rejected _ => (text, text)
       | _, _, _ => (RecorderState.originalText r, RecorderState.correctedText r)
       end.
Proof.
  intros Hw Hr Hg. pose proof Hw as (Ht & Hp & Hrec). rewrite Hr in Hrec.
  destruct Hrec as [Hc Hl].
  assert (Hd : forall c w, exec (RecordTab.dispatch c RecordTab.ClickRecord) w
                           = exec (RecordTab.recordButton_onClick c) w).
  { intros c w0. unfold RecordTab.dispatch. rewrite exec_get. reflexivity. }
  assert (E1 : exec (RecordTab.dispatch c1 RecordTab.ClickRecord) w
               = exec (VoiceRecorder.startRecording c1) w).
  { rewrite Hd. unfold RecordTab.recordButton_onClick. rewrite exec_get.
    rewrite Ht, Hp, Hr. reflexivity. }
  destruct (startRecording_state c1 w Hg) as (Hr1 & Hm1 & Ha1).
  assert (Hw1 : settled (exec (VoiceRecorder.startRecording c1) w)).
  { rewrite <- E1, Hd. apply (click_while_idle c1 w Hw Hr). }
  simpl. rewrite E1.
  split; [rewrite Hr1; repeat split |].
  assert (Hrec1 : RecorderState.isRecording
                    (World.recorder (exec (VoiceRecorder.startRecording c1) w)) = true)
    by (rewrite Hr1; reflexivity).
  destruct (click_stop_state c2 _ Hw1 Hrec1)
    as (Hm2 & Hr2 & _ & _ & _ & Hb2 & Ht2 & _).
  rewrite Hm2, Hm1, Hr2, Hb2, Ht2, Hr1. simpl. repeat split.
Qed.

Lemma record_cycle_witness :
  World.media
    (exec (RecordTab.dispatch Sample.transcription_down RecordTab.ClickRecord)
          (exec (RecordTab.dispatch Sample.ok RecordTab.ClickRecord) Sample.ready))
  = Media.mk (S (Media.granted (World.media Sample.ready))) [] [].
Proof.
  refine (proj1 (proj2 (record_cycle Sample.ok Sample.transcription_down Sample.ready
                          _ _ _))).
  - vm_compute. auto.
  - reflexivity.
  - reflexivity.
Defined.
